(** * pyinfra/modules/mysql.py: reconciliation of MySQL databases, users and
    permissions

    A shallow embedding of the three state-bearing operations of
    [pyinfra/modules/mysql.py] ([user], [database], [permission]) and the
    properties of the commands they yield.

    Python strings are [string], the facts read from the host are finite
    sets and finite maps, a generator is the list of what it yields, and the
    one exception the module can raise on its own ([KeyError], from a
    dictionary subscript) is an explicit error value. *)

From Stdlib Require Import Ascii String.
From stdpp Require Import gmap strings list.

Open Scope string_scope.
Open Scope list_scope.

(** ** Strings *)

Module Str.

(** The double quote of the SQL templates, awkward inside a literal. *)
Definition dquote : string := String "034"%char EmptyString.

(** ['"{0}"'.format(s)] *)
Definition quoted (s : string) : string := dquote +:+ s +:+ dquote.

(** [sep.join(l)] *)
Definition join (sep : string) (l : list string) : string :=
  String.concat sep l.

(** [s.replace('`', '\`')]: the replacement text is a backslash followed
    by a backtick (the escape sequence is not one Python knows, so the
    backslash stays). *)
Fixpoint escape_backticks (s : string) : string :=
  match s with
  | EmptyString => EmptyString
  | String c rest =>
      if Ascii.eqb c "096"%char
      then String "092"%char (String "096"%char (escape_backticks rest))
      else String c (escape_backticks rest)
  end.

(** [s.startswith(p)] *)
Definition startswith (p s : string) : bool := String.prefix p s.

End Str.

(** ** Python truthiness *)

Class Truthy (A : Type) := truthy : A → bool.

#[export] Instance string_truthy : Truthy string :=
  fun s => negb (String.eqb s EmptyString).
#[export] Instance list_truthy {A} : Truthy (list A) :=
  fun l => match l with [] => false | _ :: _ => true end.
#[export] Instance option_truthy {A} `{Truthy A} : Truthy (option A) :=
  fun o => match o with None => false | Some a => truthy a end.

(** ** Data model *)

(** The four [mysql_*] keyword arguments every operation takes; [None] is
    the Python default. *)
Record connection := Connection {
  mysql_user : option string;
  mysql_password : option string;
  mysql_host : option string;
  mysql_port : option N;
}.

#[export] Instance connection_eq_dec : EqDecision connection.
Proof. solve_decision. Defined.

(** All four arguments left at their default. *)
Definition default_connection : connection := Connection None None None None.

(** What an operation yields. [make_execute_mysql_command] lives in
    [pyinfra.facts.mysql], outside this module: a yielded command is kept as
    the call itself, the SQL text with the connection arguments passed
    along. *)
Record command := make_execute_mysql_command {
  sql : string;
  via : connection;
}.

#[export] Instance command_eq_dec : EqDecision command.
Proof. solve_decision. Defined.

(** A [permissions] argument is a single string or a list of strings. *)
Inductive permissions_arg :=
| PermString (s : string)
| PermList (l : list string).

#[export] Instance permissions_arg_truthy : Truthy permissions_arg :=
  fun p => match p with PermString s => truthy s | PermList l => truthy l end.

Module Grant.
(** One value of the grant snapshot: [{'permissions': set of tokens}].
    Only membership and iteration are used on the set. *)
Record entry := Entry { permissions : list string }.
End Grant.

(** [host.fact]: the three facts the module reads, each a function of the
    arguments it is called with. The grant snapshot is a dictionary from
    ["database.table"] to its entry. *)
Record facts := Facts {
  mysql_databases : connection → gset string;
  mysql_users : connection → gset string;
  mysql_user_grants : string → string → connection → gmap string Grant.entry;
}.

(** ** Errors *)

(** The result of running a generator to its end: what it yielded, or the
    exception that ended it. *)
Inductive result (A : Type) :=
| Ok (a : A)
| KeyError (key : string).
Arguments Ok {A} a.
Arguments KeyError {A} key.

(** Sequencing: an exception skips the rest. *)
#[export] Instance result_bind : MBind result := fun A B k r =>
  match r with
  | Ok a => k a
  | KeyError key => KeyError key
  end.

Module Dict.
(** [d[k]]: raises [KeyError] when the key is missing. *)
Definition getitem {V} (d : gmap string V) (k : string) : result V :=
  match d !! k with
  | Some v => Ok v
  | None => KeyError k
  end.

(** [k in d] *)
Definition contains {V} (d : gmap string V) (k : string) : bool :=
  bool_decide (is_Some (d !! k)).
End Dict.

(** ** permission *)

(** ['ALL' if permission == 'ALL PRIVILEGES' else permission] *)
Definition normalize (permission : string) : string :=
  if String.eqb permission "ALL PRIVILEGES" then "ALL" else permission.

(** [if isinstance(permissions, six.string_types): permissions = [permissions]] *)
Definition ensure_list (permissions : permissions_arg) : list string :=
  match permissions with
  | PermString s => [s]
  | PermList l => l
  end.

(** [if x != '*': x = '`{0}`'.format(x)] *)
Definition backquote (x : string) : string :=
  if String.eqb x "*" then x else "`" +:+ x +:+ "`".

(** ['{0}.{1}'.format(database, table)] on the quoted parts. *)
Definition database_table (database table : string) : string :=
  backquote database +:+ "." +:+ backquote table.

(** [all(permission in existing_permissions for permission in permissions)] *)
Definition all_in (existing_permissions permissions : list string) : bool :=
  forallb (fun permission => bool_decide (permission ∈ existing_permissions))
          permissions.

(** The [GRANT]/[REVOKE] text, [action] and [target] being the two words the
    decision chose. *)
Definition permission_sql (action target : string) (permissions : list string)
    (database table user user_hostname : string) : string :=
  Str.escape_backticks
    (action +:+ " " +:+ Str.join ", " permissions +:+ " "
     +:+ "ON " +:+ database +:+ "." +:+ table +:+ " "
     +:+ target +:+ " " +:+ Str.quoted user +:+ "@"
     +:+ Str.quoted user_hostname +:+ " ").

(** [target] and [action] are set together or not at all. *)
Definition decide_action (has_permissions present : bool)
    : option (string * string) :=
  if negb has_permissions && present then Some ("GRANT", "TO")
  else if has_permissions && negb present then Some ("REVOKE", "FROM")
  else None.

Definition permission (host : facts)
    (user : string) (permissions : permissions_arg)
    (user_hostname database table : string)
    (present flush : bool) (conn : connection) : result (list command) :=
  let permissions := ensure_list permissions in
  let database := backquote database in
  let table := backquote table in
  let database_table := database +:+ "." +:+ table in
  let user_grants := mysql_user_grants host user user_hostname conn in
  entry ← Dict.getitem user_grants database_table;
  let existing_permissions := normalize <$> Grant.permissions entry in
  let has_permissions :=
    Dict.contains user_grants database_table
    && all_in existing_permissions permissions in
  match decide_action has_permissions present with
  | Some (action, target) =>
      let command :=
        permission_sql action target permissions database table
                       user user_hostname in
      Ok (make_execute_mysql_command command conn
          :: (if flush
              then [make_execute_mysql_command "FLUSH PRIVILEGES" conn]
              else []))
  | None => Ok []
  end.

(** ** Generators that delegate *)

(** [user] and [database] yield their own commands and, for the permission
    part, the generator that the nested call [permission(state, host, ...)]
    returns. *)
Inductive yielded :=
| Command (c : command)
| Generator (g : result (list command)).

(** Modelled from the spec: the operation framework ([pyinfra.api], outside
    this module) consumes what an operation yields as one ordered sequence of
    commands, a nested generator being replaced by what it yields in turn; an
    exception raised while a nested generator runs ends the whole
    operation. *)
Fixpoint unroll (ys : list yielded) : result (list command) :=
  match ys with
  | [] => Ok []
  | Command c :: rest => cs ← unroll rest; Ok (c :: cs)
  | Generator g :: rest => cs ← g; cs' ← unroll rest; Ok (cs ++ cs')
  end.

(** The commands an operation yields itself, and the nested generators. *)
Definition own_commands (ys : list yielded) : list command :=
  omap (fun y => match y with Command c => Some c | Generator _ => None end) ys.

Definition delegated (ys : list yielded) : list (result (list command)) :=
  omap (fun y => match y with Command _ => None | Generator g => Some g end) ys.

(** ** user *)

Definition drop_user_sql (name user_hostname : string) : string :=
  "DROP USER " +:+ Str.quoted name +:+ "@" +:+ Str.quoted user_hostname.

(** [' '.join(sql_bits)] for the [CREATE USER] statement. *)
Definition create_user_sql (name user_hostname : string)
    (password : option string) : string :=
  Str.join " "
    (["CREATE USER " +:+ Str.quoted name +:+ "@" +:+ Str.quoted user_hostname]
     ++ match password with
        | Some p => if truthy p then ["IDENTIFIED BY " +:+ Str.quoted p] else []
        | None => []
        end).

Definition user (host : facts) (name : string)
    (present : bool) (user_hostname : string)
    (password : option string) (permissions : option permissions_arg)
    (conn : connection) : list yielded :=
  let current_users := mysql_users host conn in
  let user_host := name +:+ "@" +:+ user_hostname in
  let is_present := bool_decide (user_host ∈ current_users) in
  if negb present then
    (if is_present
     then [Command (make_execute_mysql_command
                      (drop_user_sql name user_hostname) conn)]
     else [])
  else
    (if present && negb is_present
     then [Command (make_execute_mysql_command
                      (create_user_sql name user_hostname password) conn)]
     else [])
    ++ match permissions with
       | Some perms =>
           if truthy perms
           then [Generator (permission host name perms "localhost" "*" "*"
                                       true true conn)]
           else []
       | None => []
       end.

(** ** database *)

Definition drop_database_sql (name : string) : string :=
  "DROP DATABASE " +:+ name.

(** [' '.join(sql_bits)] for the [CREATE DATABASE] statement. *)
Definition create_database_sql (name : string)
    (collate charset : option string) : string :=
  Str.join " "
    (["CREATE DATABASE " +:+ name]
     ++ match collate with
        | Some c => if truthy c then ["COLLATE " +:+ c] else []
        | None => []
        end
     ++ match charset with
        | Some c => if truthy c then ["CHARSET " +:+ c] else []
        | None => []
        end).

Definition database (host : facts) (name : string)
    (present : bool) (collate charset : option string)
    (user : option string) (user_hostname : string)
    (user_permissions : option permissions_arg)
    (conn : connection) : list yielded :=
  let current_databases := mysql_databases host conn in
  let is_present := bool_decide (name ∈ current_databases) in
  if negb present then
    (if is_present
     then [Command (make_execute_mysql_command (drop_database_sql name) conn)]
     else [])
  else
    (if present && negb is_present
     then [Command (make_execute_mysql_command
                      (create_database_sql name collate charset) conn)]
     else [])
    ++ match user, user_permissions with
       | Some u, Some perms =>
           if truthy u && truthy perms
           then [Generator (permission host u perms user_hostname name "*"
                                       true true default_connection)]
           else []
       | _, _ => []
       end.

(** ** Reading what was yielded *)

(** What a [permission] generator has yielded when it ends. The only
    exception it can raise comes from the subscript that precedes every
    [yield], so a generator that raises has yielded nothing. *)
Definition commands_of (g : result (list command)) : list command :=
  match g with
  | Ok cs => cs
  | KeyError _ => []
  end.

(** Statements are told apart by their leading keywords. *)
Definition is_grant (c : command) : bool := Str.startswith "GRANT " (sql c).
Definition is_revoke (c : command) : bool := Str.startswith "REVOKE " (sql c).
Definition is_flush (c : command) : bool :=
  String.eqb (sql c) "FLUSH PRIVILEGES".
Definition is_create_database (c : command) : bool :=
  Str.startswith "CREATE DATABASE " (sql c).
Definition is_drop_database (c : command) : bool :=
  Str.startswith "DROP DATABASE " (sql c).
Definition is_create_user (c : command) : bool :=
  Str.startswith "CREATE USER " (sql c).
Definition is_drop_user (c : command) : bool :=
  Str.startswith "DROP USER " (sql c).

(** ** The host after a run *)

(** Modelled from the spec: what the MySQL server does with a statement, and
    what the fact provider ([pyinfra.facts.mysql]) then reports, are outside
    this module; this is the snapshot "updated to reflect the first call's
    effect". A command changes the facts seen through the
    connection it is sent over: [CREATE]/[DROP DATABASE] add or remove the
    operation's database name, [CREATE]/[DROP USER] its user identity,
    [GRANT] adds the desired tokens to the entry of the operation's scope,
    [REVOKE] removes from it every token that the comparison matches with a
    revoked one, and any other statement ([FLUSH PRIVILEGES]) leaves the
    facts as they are. *)
Module Effect.

Definition on_databases (conn : connection) (f : gset string → gset string)
    (host : facts) : facts :=
  Facts (fun c => if decide (c = conn) then f (mysql_databases host c)
                  else mysql_databases host c)
        (mysql_users host) (mysql_user_grants host).

Definition on_users (conn : connection) (f : gset string → gset string)
    (host : facts) : facts :=
  Facts (mysql_databases host)
        (fun c => if decide (c = conn) then f (mysql_users host c)
                  else mysql_users host c)
        (mysql_user_grants host).

Definition on_grants (user user_hostname : string) (conn : connection)
    (f : gmap string Grant.entry → gmap string Grant.entry)
    (host : facts) : facts :=
  Facts (mysql_databases host) (mysql_users host)
        (fun u h c =>
           if decide (u = user ∧ h = user_hostname ∧ c = conn)
           then f (mysql_user_grants host u h c)
           else mysql_user_grants host u h c).

Definition granted (key : string) (tokens : list string)
    (grants : gmap string Grant.entry) : gmap string Grant.entry :=
  <[key := Grant.Entry
             (match grants !! key with
              | Some e => Grant.permissions e
              | None => []
              end ++ tokens)]> grants.

Definition revoked (key : string) (tokens : list string)
    (grants : gmap string Grant.entry) : gmap string Grant.entry :=
  match grants !! key with
  | Some e =>
      <[key := Grant.Entry
                 (filter (fun t => normalize t ∉ tokens)
                         (Grant.permissions e))]> grants
  | None => grants
  end.

Definition of_database (name : string) (host : facts) (c : command)
    : facts :=
  if is_create_database c then on_databases (via c) (union {[name]}) host
  else if is_drop_database c
       then on_databases (via c) (fun s => s ∖ {[name]}) host
       else host.

Definition of_user (name user_hostname : string) (host : facts)
    (c : command) : facts :=
  let user_host := name +:+ "@" +:+ user_hostname in
  if is_create_user c then on_users (via c) (union {[user_host]}) host
  else if is_drop_user c
       then on_users (via c) (fun s => s ∖ {[user_host]}) host
       else host.

Definition of_permission (user : string) (permissions : permissions_arg)
    (user_hostname database table : string) (host : facts) (c : command)
    : facts :=
  let key := database_table database table in
  let tokens := ensure_list permissions in
  if is_grant c
  then on_grants user user_hostname (via c) (granted key tokens) host
  else if is_revoke c
       then on_grants user user_hostname (via c) (revoked key tokens) host
       else host.

End Effect.

(** The host after the commands of one [permission] call have run. *)
Definition after_permission (host : facts)
    (user : string) (permissions : permissions_arg)
    (user_hostname database table : string)
    (present flush : bool) (conn : connection) : facts :=
  foldl (Effect.of_permission user permissions user_hostname database table)
        host
        (commands_of (permission host user permissions user_hostname
                                 database table present flush conn)).

(** The host after one [user] call: its own commands, then those of the
    permission call it delegates to. *)
Definition after_user (host : facts) (name : string)
    (present : bool) (user_hostname : string)
    (password : option string) (permissions : option permissions_arg)
    (conn : connection) : facts :=
  let ys := user host name present user_hostname password permissions conn in
  let host' := foldl (Effect.of_user name user_hostname) host
                     (own_commands ys) in
  match permissions with
  | Some perms =>
      foldl (Effect.of_permission name perms "localhost" "*" "*") host'
            (concat (commands_of <$> delegated ys))
  | None => host'
  end.

(** The host after one [database] call, likewise. *)
Definition after_database (host : facts) (name : string)
    (present : bool) (collate charset : option string)
    (user : option string) (user_hostname : string)
    (user_permissions : option permissions_arg)
    (conn : connection) : facts :=
  let ys := database host name present collate charset
                     user user_hostname user_permissions conn in
  let host' := foldl (Effect.of_database name) host (own_commands ys) in
  match user, user_permissions with
  | Some u, Some perms =>
      foldl (Effect.of_permission u perms user_hostname name "*") host'
            (concat (commands_of <$> delegated ys))
  | _, _ => host'
  end.

(** ** Statement texts, as the properties name them *)

(** The sequence yielded for a decision. *)
Definition emitted (action : option (string * string))
    (permissions : list string) (database table user user_hostname : string)
    (flush : bool) (conn : connection) : list command :=
  match action with
  | Some (action, target) =>
      make_execute_mysql_command
        (permission_sql action target permissions database table
                        user user_hostname) conn
      :: (if flush then [make_execute_mysql_command "FLUSH PRIVILEGES" conn]
          else [])
  | None => []
  end.

(** The optional [COLLATE]/[CHARSET] part of a [CREATE DATABASE]. *)
Definition clause (keyword : string) (value : option string) : string :=
  match value with
  | Some v => if truthy v then " " +:+ keyword +:+ " " +:+ v else EmptyString
  | None => EmptyString
  end.

(** The optional [IDENTIFIED BY] part of a [CREATE USER]. *)
Definition identified (password : option string) : string :=
  match password with
  | Some p => if truthy p then " IDENTIFIED BY " +:+ Str.quoted p else EmptyString
  | None => EmptyString
  end.

(** A GRANT or a REVOKE. *)
Definition is_action (c : command) : bool := is_grant c || is_revoke c.

(** ** Example hosts *)

(** A host whose three facts are the same through every connection. *)
Definition constant_host (databases users : gset string)
    (grants : gmap string Grant.entry) : facts :=
  Facts (fun _ => databases) (fun _ => users) (fun _ _ _ => grants).

(** A host that reports no grant at all. *)
Definition no_grants : facts := constant_host ∅ ∅ ∅.

(** A host that reports the global grant the way MySQL prints it. *)
Definition all_privileges_granted : facts :=
  constant_host ∅ ∅ {[ "*.*" := Grant.Entry ["ALL PRIVILEGES"] ]}.

(** A host that reports the same on one database. *)
Definition shop_all_privileges : facts :=
  constant_host ∅ ∅ {[ "`shop`.*" := Grant.Entry ["ALL PRIVILEGES"] ]}.

(** A host that reports [SELECT] alone on one database. *)
Definition db_select_only : facts :=
  constant_host ∅ ∅ {[ "`db`.*" := Grant.Entry ["SELECT"] ]}.

(** A host with one database, one user and no privilege beyond USAGE. *)
Definition usage_only : facts :=
  constant_host {["shop"]} {["bob@localhost"]}
    {[ "*.*" := Grant.Entry ["USAGE"]; "`shop`.*" := Grant.Entry ["USAGE"];
       "`blog`.*" := Grant.Entry [] ]}.

(** ** Reading the escaped text *)

(** The escaped form of a text, said apart from [Str.escape_backticks]:
    [escapes_to s t] holds when [t] is [s] with a backslash put before each
    backtick and every other character kept. *)
Inductive escapes_to : string → string → Prop :=
| escapes_end : escapes_to EmptyString EmptyString
| escapes_backtick s t :
    escapes_to s t →
    escapes_to (String "096"%char s) (String "092"%char (String "096"%char t))
| escapes_other c s t :
    c ≠ "096"%char → escapes_to s t → escapes_to (String c s) (String c t).

(** The number of backticks of a string. *)
Fixpoint backticks (s : string) : nat :=
  match s with
  | EmptyString => 0
  | String c rest =>
      (if Ascii.eqb c "096"%char then 1 else 0) + backticks rest
  end.

(** Whether some backtick of [s] does not directly follow a backslash;
    [after_backslash] tells whether the character before [s] is one. *)
Fixpoint bare_backtick (after_backslash : bool) (s : string) : bool :=
  match s with
  | EmptyString => false
  | String c rest =>
      (Ascii.eqb c "096"%char && negb after_backslash)
      || bare_backtick (Ascii.eqb c "092"%char) rest
  end.

(** A host that reports the global grant under both spellings, in another
    order and twice. *)
Definition all_twice : facts :=
  constant_host ∅ ∅
    {[ "*.*" := Grant.Entry ["SELECT"; "ALL"; "ALL PRIVILEGES"; "SELECT"] ]}.

(** A host that reports it once, the way MySQL prints it, before [SELECT]. *)
Definition all_once : facts :=
  constant_host ∅ ∅ {[ "*.*" := Grant.Entry ["ALL PRIVILEGES"; "SELECT"] ]}.

(** A host whose only user is bob at the local host. *)
Definition bob_local : facts :=
  constant_host ∅ {["bob@localhost"]} {[ "*.*" := Grant.Entry ["USAGE"] ]}.

(** * Properties *)

(** ** Auxiliary facts about strings and membership *)

Lemma all_in_true (existing wanted : list string) :
  all_in existing wanted = true ↔ ∀ p, p ∈ wanted → p ∈ existing.
Proof.
  unfold all_in. induction wanted as [|w ws IH]; simpl.
  - split; [intros _ p Hp; inversion Hp | done].
  - rewrite andb_true_iff, bool_decide_eq_true, IH. split.
    + intros [Hw Hws] p Hp. apply elem_of_cons in Hp as [->|Hp]; auto.
    + intros H. split; [apply H; left | intros p Hp; apply H; by right].
Qed.

Lemma all_in_false (existing wanted : list string) :
  all_in existing wanted = false ↔ ∃ p, p ∈ wanted ∧ p ∉ existing.
Proof.
  unfold all_in. induction wanted as [|w ws IH]; simpl.
  - split; [done | intros (p & Hp & _); inversion Hp].
  - rewrite andb_false_iff, bool_decide_eq_false, IH. split.
    + intros [Hw | (p & Hp & Hn)].
      * exists w. split; [left | done].
      * exists p. split; [by right | done].
    + intros (p & Hp & Hn). apply elem_of_cons in Hp as [->|Hp].
      * by left.
      * right. by exists p.
Qed.

Lemma normalize_never_all_privileges (p : string) :
  normalize p ≠ "ALL PRIVILEGES".
Proof.
  unfold normalize. destruct (String.eqb p "ALL PRIVILEGES") eqn:E.
  - discriminate.
  - by apply String.eqb_neq.
Qed.

Lemma normalize_other (p : string) :
  p ≠ "ALL PRIVILEGES" → normalize p = p.
Proof.
  intros H. unfold normalize. by apply String.eqb_neq in H as ->.
Qed.

Lemma elem_of_normalized_all (tokens : list string) :
  "ALL" ∈ normalize <$> tokens ↔ "ALL" ∈ tokens ∨ "ALL PRIVILEGES" ∈ tokens.
Proof.
  rewrite list_elem_of_fmap. split.
  - intros (t & Ht & Hin). unfold normalize in Ht.
    destruct (String.eqb t "ALL PRIVILEGES") eqn:E.
    + apply String.eqb_eq in E as ->. by right.
    + subst t. by left.
  - intros [H | H]; eexists; (split; [|exact H]); done.
Qed.

Lemma startswith_nil (s : string) : String.prefix EmptyString s = true.
Proof. by destruct s. Qed.

Lemma append_assoc (a b c : string) : (a +:+ b) +:+ c = a +:+ (b +:+ c).
Proof.
  induction a as [|x a IH]; [reflexivity|].
  change (String x ((a +:+ b) +:+ c) = String x (a +:+ (b +:+ c))).
  by rewrite IH.
Qed.

Lemma append_nil_r (a : string) : a +:+ EmptyString = a.
Proof.
  induction a as [|x a IH]; [reflexivity|].
  change (String x (a +:+ EmptyString) = String x a). by rewrite IH.
Qed.

(** Settles what the leading keyword of a templated statement is. *)
Ltac keyword :=
  cbv zeta;
  unfold is_grant, is_revoke, is_flush, is_create_database, is_drop_database,
    is_create_user, is_drop_user, permission_sql, drop_database_sql,
    create_database_sql, drop_user_sql, create_user_sql, Str.startswith,
    Str.join;
  simpl; rewrite ?startswith_nil; done.

(** The two statements of [permission] and the flush are told apart by
    their first word, whatever the arguments. *)
Lemma grant_sql_kind permissions database table user user_hostname conn :
  let c := make_execute_mysql_command
             (permission_sql "GRANT" "TO" permissions database table
                             user user_hostname) conn in
  is_grant c = true ∧ is_revoke c = false ∧ is_flush c = false
  ∧ is_create_database c = false.
Proof. repeat split; keyword. Qed.

Lemma revoke_sql_kind permissions database table user user_hostname conn :
  let c := make_execute_mysql_command
             (permission_sql "REVOKE" "FROM" permissions database table
                             user user_hostname) conn in
  is_grant c = false ∧ is_revoke c = true ∧ is_flush c = false
  ∧ is_create_database c = false.
Proof. repeat split; keyword. Qed.

(** ** What [permission] computes once the entry is there *)

Lemma permission_with_entry host user permissions user_hostname database table
    present flush conn entry :
  mysql_user_grants host user user_hostname conn
    !! database_table database table = Some entry →
  permission host user permissions user_hostname database table
             present flush conn
  = Ok (emitted
          (decide_action
             (all_in (normalize <$> Grant.permissions entry)
                     (ensure_list permissions)) present)
          (ensure_list permissions) (backquote database) (backquote table)
          user user_hostname flush conn).
Proof.
  intros Hentry. unfold permission, Dict.getitem, Dict.contains, emitted.
  unfold database_table in Hentry. rewrite Hentry. simpl.
  destruct (decide_action _ present) as [[action target]|]; reflexivity.
Qed.

Lemma permission_without_entry host user permissions user_hostname
    database table present flush conn :
  mysql_user_grants host user user_hostname conn
    !! database_table database table = None →
  permission host user permissions user_hostname database table
             present flush conn
  = KeyError (database_table database table).
Proof.
  intros Hentry. unfold permission, Dict.getitem.
  unfold database_table in Hentry. by rewrite Hentry.
Qed.

Section Emitted.
Context (permissions : list string)
        (database table user user_hostname : string)
        (flush : bool) (conn : connection).

Lemma emitted_grant_actions :
  List.filter is_grant
    (emitted (Some ("GRANT", "TO")) permissions database table
             user user_hostname flush conn)
  = [make_execute_mysql_command
       (permission_sql "GRANT" "TO" permissions database table
                       user user_hostname) conn]
  ∧ List.filter is_revoke
      (emitted (Some ("GRANT", "TO")) permissions database table
               user user_hostname flush conn)
    = [].
Proof using Type.
  unfold emitted. cbn [List.filter].
  destruct (grant_sql_kind permissions database table user user_hostname
              conn) as (-> & -> & _).
  by destruct flush.
Qed.

Lemma emitted_revoke_actions :
  List.filter is_revoke
    (emitted (Some ("REVOKE", "FROM")) permissions database table
             user user_hostname flush conn)
  = [make_execute_mysql_command
       (permission_sql "REVOKE" "FROM" permissions database table
                       user user_hostname) conn]
  ∧ List.filter is_grant
      (emitted (Some ("REVOKE", "FROM")) permissions database table
               user user_hostname flush conn)
    = [].
Proof using Type.
  unfold emitted. cbn [List.filter].
  destruct (revoke_sql_kind permissions database table user user_hostname
              conn) as (-> & -> & _).
  by destruct flush.
Qed.
End Emitted.

(** ** The scenarios of the module, run *)

Example grant_text :
  permission_sql "GRANT" "TO" ["SELECT"; "INSERT"] "`db`" "*" "bob" "localhost"
  = "GRANT SELECT, INSERT ON \`db\`.* TO "
    +:+ Str.quoted "bob" +:+ "@" +:+ Str.quoted "localhost" +:+ " ".
Proof. reflexivity. Qed.

Example partial_grant_is_completed :
  permission db_select_only "bob" (PermList ["SELECT"; "INSERT"])
             "localhost" "db" "*" true true default_connection
  = Ok [make_execute_mysql_command
          (permission_sql "GRANT" "TO" ["SELECT"; "INSERT"] "`db`" "*"
                          "bob" "localhost") default_connection;
        make_execute_mysql_command "FLUSH PRIVILEGES" default_connection].
Proof. by vm_compute. Qed.

Example partial_grant_is_not_revoked :
  permission db_select_only "bob" (PermList ["SELECT"; "INSERT"])
             "localhost" "db" "*" false true default_connection = Ok [].
Proof. by vm_compute. Qed.

Example subset_is_revoked :
  permission db_select_only "bob" (PermList ["SELECT"])
             "localhost" "db" "*" false false default_connection
  = Ok [make_execute_mysql_command
          (permission_sql "REVOKE" "FROM" ["SELECT"] "`db`" "*"
                          "bob" "localhost") default_connection].
Proof. by vm_compute. Qed.

Example create_database_then_grant :
  unroll (database usage_only "blog" true (Some "utf8_bin") (Some "utf8")
                   (Some "bob") "localhost" (Some (PermString "ALL"))
                   (Connection (Some "root") None None None))
  = Ok [make_execute_mysql_command
          "CREATE DATABASE blog COLLATE utf8_bin CHARSET utf8"
          (Connection (Some "root") None None None);
        make_execute_mysql_command
          (permission_sql "GRANT" "TO" ["ALL"] "`blog`" "*" "bob" "localhost")
          default_connection;
        make_execute_mysql_command "FLUSH PRIVILEGES" default_connection].
Proof. by vm_compute. Qed.

(** ** permission: the missing guard *)

(** C1. On a grant snapshot that lacks the computed key (here the empty
    snapshot, global scope, so the key is ["*.*"]) the operation fails: the
    list comprehension subscripts the snapshot before the [in] test of
    [has_permissions] is reached, so [KeyError] is raised whether
    [present] is true or false, and neither a GRANT nor an empty sequence
    is yielded. *)
Theorem permission_absent_key_raises :
  permission no_grants "bob" (PermString "SELECT") "localhost" "*" "*"
             true true default_connection = KeyError "*.*"
  ∧ permission no_grants "bob" (PermString "SELECT") "localhost" "*" "*"
               false true default_connection = KeyError "*.*".
Proof. split; by apply permission_without_entry. Qed.

(** ** permission: ALL and ALL PRIVILEGES *)

(** C2, as stated, fails: against an entry that holds ["ALL PRIVILEGES"] a
    desired ["ALL"] is satisfied and yields nothing, while a desired
    ["ALL PRIVILEGES"] is not satisfied and yields a GRANT and a flush. *)
Lemma all_privileges_not_interchangeable :
  permission all_privileges_granted "bob" (PermString "ALL")
             "localhost" "*" "*" true true default_connection = Ok []
  ∧ permission all_privileges_granted "bob" (PermString "ALL PRIVILEGES")
               "localhost" "*" "*" true true default_connection
    = Ok [make_execute_mysql_command
            (permission_sql "GRANT" "TO" ["ALL PRIVILEGES"] "*" "*"
                            "bob" "localhost") default_connection;
          make_execute_mysql_command "FLUSH PRIVILEGES" default_connection]
  ∧ permission all_privileges_granted "bob" (PermString "ALL")
               "localhost" "*" "*" true true default_connection
    ≠ permission all_privileges_granted "bob" (PermString "ALL PRIVILEGES")
                 "localhost" "*" "*" true true default_connection.
Proof. by vm_compute. Qed.

(** C2, amended. Only the tokens reported by the host are normalized. For a
    snapshot whose entry for the computed key exists: a desired ["ALL"] with
    [present] true yields no command exactly when the entry holds ["ALL"] or
    ["ALL PRIVILEGES"]; a desired ["ALL PRIVILEGES"] is never found among the
    normalized tokens, so with [present] true it yields the GRANT of
    ["ALL PRIVILEGES"] (and the flush when asked) whatever the entry holds,
    and with [present] false it yields nothing. *)
Theorem all_privileges_normalized_on_host_side
    host user user_hostname database table flush conn entry :
  mysql_user_grants host user user_hostname conn
    !! database_table database table = Some entry →
  (permission host user (PermString "ALL") user_hostname database table
              true flush conn = Ok []
   ↔ "ALL" ∈ Grant.permissions entry
     ∨ "ALL PRIVILEGES" ∈ Grant.permissions entry)
  ∧ permission host user (PermString "ALL PRIVILEGES") user_hostname
               database table true flush conn
    = Ok (make_execute_mysql_command
            (permission_sql "GRANT" "TO" ["ALL PRIVILEGES"]
                            (backquote database) (backquote table)
                            user user_hostname) conn
          :: (if flush
              then [make_execute_mysql_command "FLUSH PRIVILEGES" conn]
              else []))
  ∧ permission host user (PermString "ALL PRIVILEGES") user_hostname
               database table false flush conn = Ok [].
Proof.
  intros Hentry.
  rewrite !(permission_with_entry _ _ _ _ _ _ _ _ _ _ Hentry). simpl ensure_list.
  assert (all_in (normalize <$> Grant.permissions entry) ["ALL PRIVILEGES"]
          = false) as Hnever.
  { apply all_in_false. exists "ALL PRIVILEGES". split; [left|].
    intros (t & Ht & _)%list_elem_of_fmap.
    by apply (normalize_never_all_privileges t). }
  rewrite Hnever. repeat split.
  - intros Hnone. apply elem_of_normalized_all.
    destruct (all_in _ ["ALL"]) eqn:Hall; [|done].
    apply all_in_true with (p := "ALL") in Hall; [done | left].
  - intros Hin%elem_of_normalized_all.
    assert (all_in (normalize <$> Grant.permissions entry) ["ALL"] = true)
      as ->; [|done].
    apply all_in_true. by intros p ->%list_elem_of_singleton.
Qed.

(** On a host that reports ["ALL PRIVILEGES"] on one database: a desired
    ["ALL"] is satisfied, a desired ["ALL PRIVILEGES"] is not there to be
    revoked. *)
Lemma all_privileges_normalized_on_host_side_witness :
  permission shop_all_privileges "bob" (PermString "ALL") "localhost"
             "shop" "*" true true default_connection = Ok []
  ∧ permission shop_all_privileges "bob" (PermString "ALL PRIVILEGES")
               "localhost" "shop" "*" false true default_connection = Ok [].
Proof.
  destruct (all_privileges_normalized_on_host_side
              shop_all_privileges "bob" "localhost" "shop" "*" true
              default_connection (Grant.Entry ["ALL PRIVILEGES"]) eq_refl)
    as (Hall & _ & Hrevoke).
  split; [|exact Hrevoke].
  apply Hall. right. apply (bool_decide_unpack _). vm_compute. exact I.
Defined.

(** ** permission: the decision table *)

Lemma escape_backticks_escapes (s : string) :
  escapes_to s (Str.escape_backticks s).
Proof.
  induction s as [|c s IH]; [constructor|]. simpl.
  destruct (Ascii.eqb c "096"%char) eqn:Hc.
  - apply Ascii.eqb_eq in Hc as ->. by constructor.
  - apply Ascii.eqb_neq in Hc. by constructor.
Qed.

Lemma escapes_to_unique (s t : string) :
  escapes_to s t → t = Str.escape_backticks s.
Proof.
  induction 1 as [|s t _ IH|c s t Hc _ IH]; [done| |]; simpl.
  - by rewrite IH.
  - apply Ascii.eqb_neq in Hc as ->. by rewrite IH.
Qed.

(** The scope part of the key and of the statement, spelled out. *)
Lemma backquote_text (x : string) :
  backquote x = if String.eqb x "*" then "*" else "`" +:+ x +:+ "`".
Proof.
  unfold backquote. destruct (String.eqb x "*") eqn:Hx; [|done].
  by apply String.eqb_eq in Hx.
Qed.

(** The statement of [permission], spelled out. *)
Lemma permission_sql_text action target permissions database table
    user user_hostname :
  permission_sql action target permissions database table user user_hostname
  = Str.escape_backticks
      (action +:+ " " +:+ String.concat ", " permissions +:+ " ON "
       +:+ database +:+ "." +:+ table +:+ " " +:+ target +:+ " "
       +:+ String "034"%char
             (user +:+ String "034"%char
                ("@" +:+ String "034"%char
                   (user_hostname +:+ String "034"%char " ")))).
Proof.
  unfold permission_sql, Str.quoted, Str.join, Str.dquote.
  by rewrite !append_assoc.
Qed.

(** The tokens found after normalization, spelled out: a token other than
    ["ALL PRIVILEGES"] that the host reports, and ["ALL"] when the host
    reports ["ALL PRIVILEGES"]. *)
Lemma elem_of_normalized (tokens : list string) (p : string) :
  p ∈ normalize <$> tokens
  ↔ (p ∈ tokens ∧ p ≠ "ALL PRIVILEGES")
    ∨ (p = "ALL" ∧ "ALL PRIVILEGES" ∈ tokens).
Proof.
  rewrite list_elem_of_fmap. split.
  - intros (t & -> & Hin). unfold normalize.
    destruct (String.eqb t "ALL PRIVILEGES") eqn:Ht.
    + apply String.eqb_eq in Ht as ->. by right.
    + left. split; [done|]. by apply String.eqb_neq.
  - intros [[Hin Hne] | [-> Hin]].
    + exists p. split; [|done]. symmetry. by apply normalize_other.
    + by exists "ALL PRIVILEGES".
Qed.

(** C3. When the entry for the computed key exists, the operation yields
    exactly one GRANT, of the whole desired list, if and only if [present]
    is true and some desired token is missing from the normalized existing
    tokens; exactly one REVOKE, of the desired list, if and only if
    [present] is false and every desired token is among them; and in every
    other case, a partial overlap with [present] false included, it yields
    no command at all.

    Nothing below is said through the definitions of the operation: the key
    and the scope are written out, a token is held when the host reports it
    under a name other than ["ALL PRIVILEGES"] or when it is ["ALL"] and the
    host reports ["ALL PRIVILEGES"], and the GRANT and the REVOKE are the
    commands, over the connection of the call, whose text is the escaped
    form of the statement written out with the whole desired list. *)
Theorem permission_decision_table
    host user permissions user_hostname database table present flush conn
    entry :
  let scope x := if String.eqb x "*" then "*" else "`" +:+ x +:+ "`" in
  let wanted :=
    match permissions with PermString s => [s] | PermList l => l end in
  let held p :=
    (p ∈ Grant.permissions entry ∧ p ≠ "ALL PRIVILEGES")
    ∨ (p = "ALL" ∧ "ALL PRIVILEGES" ∈ Grant.permissions entry) in
  let missing := ∃ p, p ∈ wanted ∧ ¬ held p in
  let satisfied := ∀ p, p ∈ wanted → held p in
  let statement action target :=
    action +:+ " " +:+ String.concat ", " wanted +:+ " ON "
    +:+ scope database +:+ "." +:+ scope table +:+ " " +:+ target +:+ " "
    +:+ String "034"%char
          (user +:+ String "034"%char
             ("@" +:+ String "034"%char
                (user_hostname +:+ String "034"%char " "))) in
  mysql_user_grants host user user_hostname conn
    !! (scope database +:+ "." +:+ scope table) = Some entry →
  ∃ cmds grant revoke,
    permission host user permissions user_hostname database table
               present flush conn = Ok cmds
    ∧ escapes_to (statement "GRANT" "TO") (sql grant) ∧ via grant = conn
    ∧ escapes_to (statement "REVOKE" "FROM") (sql revoke) ∧ via revoke = conn
    ∧ (List.filter is_grant cmds = [grant] ↔ present = true ∧ missing)
    ∧ (¬ (present = true ∧ missing) → List.filter is_grant cmds = [])
    ∧ (List.filter is_revoke cmds = [revoke] ↔ present = false ∧ satisfied)
    ∧ (¬ (present = false ∧ satisfied) → List.filter is_revoke cmds = [])
    ∧ (¬ (present = true ∧ missing) → ¬ (present = false ∧ satisfied) →
       cmds = []).
Proof.
  intros scope wanted held missing satisfied statement Hentry.
  assert (∀ x, scope x = backquote x) as Hscope
    by (intros x; symmetry; apply backquote_text).
  rewrite !Hscope in Hentry. fold (database_table database table) in Hentry.
  assert (∀ p, held p ↔ p ∈ normalize <$> Grant.permissions entry) as Hheld
    by (intros p; symmetry; apply elem_of_normalized).
  assert (wanted = ensure_list permissions) as Hwanted by done.
  exists (emitted
            (decide_action
               (all_in (normalize <$> Grant.permissions entry) wanted)
               present)
            wanted (backquote database) (backquote table)
            user user_hostname flush conn),
    (make_execute_mysql_command
       (permission_sql "GRANT" "TO" wanted (backquote database)
                       (backquote table) user user_hostname) conn),
    (make_execute_mysql_command
       (permission_sql "REVOKE" "FROM" wanted (backquote database)
                       (backquote table) user user_hostname) conn).
  split; [rewrite Hwanted; by apply permission_with_entry|].
  split; [|split; [done|split; [|split; [done|]]]].
  { cbn [sql]. rewrite permission_sql_text. subst statement. cbv beta.
    rewrite !Hscope. apply escape_backticks_escapes. }
  { cbn [sql]. rewrite permission_sql_text. subst statement. cbv beta.
    rewrite !Hscope. apply escape_backticks_escapes. }
  destruct (emitted_grant_actions wanted (backquote database)
              (backquote table) user user_hostname flush conn) as [Hgg Hgr].
  destruct (emitted_revoke_actions wanted (backquote database)
              (backquote table) user user_hostname flush conn) as [Hrr Hrg].
  destruct (all_in (normalize <$> Grant.permissions entry) wanted) eqn:Hall.
  - assert satisfied as Hsat.
    { intros p Hp. apply Hheld. revert p Hp. by apply all_in_true. }
    assert (¬ missing) as Hmiss.
    { intros (p & Hp & Hn). by apply Hn, Hsat. }
    destruct present; cbn [decide_action negb andb].
    + cbn [emitted List.filter].
      repeat split; try done; intros H; try done; by destruct H.
    + rewrite Hrr, Hrg.
      repeat split; try done; intros H; try done.
      * by destruct H.
      * exfalso. by apply H.
      * intros H'. exfalso. by apply H'.
  - assert missing as Hmiss.
    { apply all_in_false in Hall as (p & Hp & Hn). exists p.
      split; [done|]. by rewrite Hheld. }
    assert (¬ satisfied) as Hsat.
    { intros Hs. destruct Hmiss as (p & Hp & Hn). by apply Hn, Hs. }
    destruct present; cbn [decide_action negb andb].
    + rewrite Hgg, Hgr.
      repeat split; try done; intros H; try done.
      * exfalso. by apply H.
      * by destruct H.
      * exfalso. by apply H.
    + cbn [emitted List.filter].
      repeat split; try done; intros H; try done; by destruct H.
Qed.

(** The decision table at work, with the texts written out. Against a host
    that reports [SELECT] alone, asking for [SELECT] and [INSERT] yields the
    GRANT of both; against a host that reports ["ALL PRIVILEGES"], taking
    ["ALL"] away yields the REVOKE of ["ALL"]. *)
Lemma permission_decision_table_witness :
  (∃ cmds,
     permission db_select_only "bob" (PermList ["SELECT"; "INSERT"])
                "localhost" "db" "*" true true default_connection = Ok cmds
     ∧ List.filter is_grant cmds
       = [make_execute_mysql_command
            ("GRANT SELECT, INSERT ON \`db\`.* TO "
             +:+ String "034"%char
                   ("bob" +:+ String "034"%char
                      ("@" +:+ String "034"%char
                         ("localhost" +:+ String "034"%char " "))))
            default_connection])
  ∧ (∃ cmds,
       permission shop_all_privileges "bob" (PermString "ALL")
                  "localhost" "shop" "*" false false default_connection
       = Ok cmds
       ∧ List.filter is_revoke cmds
         = [make_execute_mysql_command
              ("REVOKE ALL ON \`shop\`.* FROM "
               +:+ String "034"%char
                     ("bob" +:+ String "034"%char
                        ("@" +:+ String "034"%char
                           ("localhost" +:+ String "034"%char " "))))
              default_connection]).
Proof.
  split.
  - destruct (permission_decision_table
                db_select_only "bob" (PermList ["SELECT"; "INSERT"])
                "localhost" "db" "*" true true default_connection
                (Grant.Entry ["SELECT"]) eq_refl)
      as (cmds & [text conn] & revoke & Hrun & Htext & Hvia & _ & _
          & Hgrant & _).
    exists cmds. split; [exact Hrun|].
    apply escapes_to_unique in Htext. cbn [sql via] in Htext, Hvia.
    rewrite Htext, Hvia in Hgrant. apply Hgrant. split; [reflexivity|].
    exists "INSERT". split.
    + apply (bool_decide_unpack _). vm_compute. exact I.
    + intros [[Hin _] | [Heq _]].
      * apply (bool_decide_pack _) in Hin. vm_compute in Hin. exact Hin.
      * discriminate Heq.
  - destruct (permission_decision_table
                shop_all_privileges "bob" (PermString "ALL")
                "localhost" "shop" "*" false false default_connection
                (Grant.Entry ["ALL PRIVILEGES"]) eq_refl)
      as (cmds & grant & [text conn] & Hrun & _ & _ & Htext & Hvia
          & _ & _ & Hrevoke & _).
    exists cmds. split; [exact Hrun|].
    apply escapes_to_unique in Htext. cbn [sql via] in Htext, Hvia.
    rewrite Htext, Hvia in Hrevoke. apply Hrevoke. split; [reflexivity|].
    intros p Hp. apply list_elem_of_singleton in Hp as ->.
    right. split; [reflexivity|].
    apply (bool_decide_unpack _). vm_compute. exact I.
Defined.

(** ** permission: the flush *)

(** C5. In the sequence that [permission] yields, a [FLUSH PRIVILEGES]
    appears if and only if [flush] is true and a GRANT or REVOKE was
    yielded; it then directly follows that command and ends the sequence.
    The sequence has one of three shapes: empty, the action alone, or the
    action followed by the flush; without an action nothing is yielded,
    whatever [flush] is. *)
Theorem flush_follows_action
    host user permissions user_hostname database table present flush conn :
  let cmds :=
    commands_of (permission host user permissions user_hostname
                            database table present flush conn) in
  let flush_cmd := make_execute_mysql_command "FLUSH PRIVILEGES" conn in
  (cmds = []
   ∨ (∃ a, is_action a = true ∧ is_flush a = false
           ∧ cmds = a :: (if flush then [flush_cmd] else [])))
  ∧ ((∃ c, c ∈ cmds ∧ is_flush c = true)
     ↔ flush = true ∧ ∃ a, a ∈ cmds ∧ is_action a = true)
  ∧ ((∀ a, a ∈ cmds → is_action a = false) → cmds = []).
Proof.
  intros cmds flush_cmd.
  assert (cmds = []
          ∨ (∃ a, is_action a = true ∧ is_flush a = false
                  ∧ cmds = a :: (if flush then [flush_cmd] else [])))
    as Hshape.
  { subst cmds.
    destruct (mysql_user_grants host user user_hostname conn
                !! database_table database table) as [entry|] eqn:Hentry.
    - rewrite (permission_with_entry _ _ _ _ _ _ _ _ _ _ Hentry).
      destruct (all_in _ _), present; cbn [decide_action negb andb];
        cbn [commands_of emitted]; auto; right; eexists;
        (split; [|split; [|reflexivity]]); unfold is_action; keyword.
    - rewrite permission_without_entry by done. by left. }
  split; [exact Hshape|].
  destruct Hshape as [-> | (a & Ha & Hnf & ->)].
  - split; [|done]. split.
    + intros (c & Hc & _). inversion Hc.
    + intros (_ & a & Ha & _). inversion Ha.
  - split.
    + split.
      * intros (c & Hc & Hflush).
        apply elem_of_cons in Hc as [-> | Hc]; [congruence|].
        destruct flush; [|inversion Hc].
        split; [done|]. exists a. split; [left | done].
      * intros (-> & _). exists flush_cmd. split; [|done].
        right. left.
    + intros Hnone. specialize (Hnone a (list_elem_of_here _ _)). congruence.
Qed.

Lemma own_commands_app (ys1 ys2 : list yielded) :
  own_commands (ys1 ++ ys2) = own_commands ys1 ++ own_commands ys2.
Proof. apply omap_app. Qed.

Lemma delegated_app (ys1 ys2 : list yielded) :
  delegated (ys1 ++ ys2) = delegated ys1 ++ delegated ys2.
Proof. apply omap_app. Qed.

(** What [user] and [database] yield when the object is not wanted. *)
Lemma user_unwanted_yields host name user_hostname password permissions conn :
  user host name false user_hostname password permissions conn
  = if bool_decide (name +:+ "@" +:+ user_hostname ∈ mysql_users host conn)
    then [Command (make_execute_mysql_command
                     (drop_user_sql name user_hostname) conn)]
    else [].
Proof. reflexivity. Qed.

Lemma database_unwanted_yields host name collate charset db_user user_hostname
    user_permissions conn :
  database host name false collate charset db_user user_hostname
           user_permissions conn
  = if bool_decide (name ∈ mysql_databases host conn)
    then [Command (make_execute_mysql_command (drop_database_sql name) conn)]
    else [].
Proof. reflexivity. Qed.

(** Commands of a kind that no delegated call yields are, in the unrolled
    sequence, those the operation yields itself. *)
Lemma unroll_filter (kind : command → bool) (ys : list yielded) cmds :
  unroll ys = Ok cmds →
  (∀ g c, g ∈ delegated ys → c ∈ commands_of g → kind c = false) →
  List.filter kind cmds = List.filter kind (own_commands ys).
Proof.
  revert cmds. induction ys as [|[c|g] ys IH]; intros cmds.
  - by intros [= <-].
  - cbn [unroll]. destruct (unroll ys) as [cs|key]; [|done].
    cbn [mbind result_bind]. intros [= <-] Hnone.
    change (own_commands (Command c :: ys)) with (c :: own_commands ys).
    cbn [List.filter]. rewrite (IH cs eq_refl); [done|].
    intros g' c' Hg. by apply Hnone.
  - cbn [unroll]. destruct g as [cs|key]; [|done].
    destruct (unroll ys) as [cs'|key]; [|done].
    cbn [mbind result_bind]. intros [= <-] Hnone.
    change (own_commands (Generator (Ok cs) :: ys)) with (own_commands ys).
    rewrite List.filter_app, (IH cs' eq_refl).
    + assert (List.filter kind cs = []) as ->; [|done].
      assert (∀ c, c ∈ cs → kind c = false) as Hcs.
      { intros c Hc. apply (Hnone (Ok cs)); [left | done]. }
      clear -Hcs. induction cs as [|c cs IH]; [done|].
      cbn [List.filter]. rewrite (Hcs c) by left.
      apply IH. intros c' Hc'. apply Hcs. by right.
    + intros g' c' Hg. apply Hnone. by right.
Qed.

(** ** What the commands of [permission] look like *)

Lemma permission_commands host user permissions user_hostname database table
    present flush conn c :
  c ∈ commands_of (permission host user permissions user_hostname
                              database table present flush conn) →
  via c = conn
  ∧ is_create_database c = false ∧ is_drop_database c = false
  ∧ is_create_user c = false ∧ is_drop_user c = false.
Proof.
  destruct (mysql_user_grants host user user_hostname conn
              !! database_table database table) as [entry|] eqn:Hentry.
  - rewrite (permission_with_entry _ _ _ _ _ _ _ _ _ _ Hentry).
    destruct (all_in _ _), present, flush;
      cbn [decide_action negb andb commands_of emitted];
      rewrite ?elem_of_cons, ?elem_of_nil;
      intros H; repeat destruct H as [H | H]; try done; subst c;
      repeat split; keyword.
  - rewrite permission_without_entry by done. intros H. inversion H.
Qed.

(** ** The parts of what [user] and [database] yield *)

Lemma create_database_sql_text name collate charset :
  create_database_sql name collate charset
  = "CREATE DATABASE " +:+ name
    +:+ clause "COLLATE" collate +:+ clause "CHARSET" charset.
Proof.
  unfold create_database_sql, clause, Str.join.
  destruct collate as [c|], charset as [s|];
    try destruct (truthy c); try destruct (truthy s);
    cbn [app String.concat];
    rewrite ?append_assoc, ?append_nil_r; reflexivity.
Qed.

Lemma create_user_sql_text name user_hostname password :
  create_user_sql name user_hostname password
  = "CREATE USER " +:+ Str.quoted name +:+ "@" +:+ Str.quoted user_hostname
    +:+ identified password.
Proof.
  unfold create_user_sql, identified, Str.join.
  destruct password as [p|]; try destruct (truthy p);
    cbn [app String.concat];
    rewrite ?append_assoc, ?append_nil_r; reflexivity.
Qed.

Lemma create_user_kind name user_hostname password conn :
  is_create_user (make_execute_mysql_command
                    (create_user_sql name user_hostname password) conn) = true.
Proof. rewrite create_user_sql_text. keyword. Qed.

Lemma create_database_kind name collate charset conn :
  is_create_database (make_execute_mysql_command
                        (create_database_sql name collate charset) conn)
  = true.
Proof. rewrite create_database_sql_text. keyword. Qed.

(** The two parts of what [user] and [database] yield when the object is
    wanted. *)
Lemma user_wanted_parts host name user_hostname password permissions conn :
  let ys := user host name true user_hostname password permissions conn in
  own_commands ys
  = (if bool_decide (name +:+ "@" +:+ user_hostname ∈ mysql_users host conn)
     then []
     else [make_execute_mysql_command
             (create_user_sql name user_hostname password) conn])
  ∧ delegated ys
    = match permissions with
      | Some perms =>
          if truthy perms
          then [permission host name perms "localhost" "*" "*" true true conn]
          else []
      | None => []
      end.
Proof.
  cbv zeta. unfold user. cbn [negb andb].
  rewrite own_commands_app, delegated_app.
  destruct (bool_decide _); (destruct permissions as [perms|]; [|done]);
    by destruct (truthy perms).
Qed.

Lemma database_wanted_parts host name collate charset db_user user_hostname
    user_permissions conn :
  let ys := database host name true collate charset
                     db_user user_hostname user_permissions conn in
  own_commands ys
  = (if bool_decide (name ∈ mysql_databases host conn)
     then []
     else [make_execute_mysql_command
             (create_database_sql name collate charset) conn])
  ∧ delegated ys
    = match db_user, user_permissions with
      | Some u, Some perms =>
          if truthy u && truthy perms
          then [permission host u perms user_hostname name "*" true true
                           default_connection]
          else []
      | _, _ => []
      end.
Proof.
  cbv zeta. unfold database. cbn [negb andb].
  rewrite own_commands_app, delegated_app.
  destruct (bool_decide _);
    (destruct db_user as [u|], user_permissions as [perms|]; try done);
    by destruct (truthy u && truthy perms).
Qed.

(** Every nested generator is a [permission] call, and which one. *)
Lemma user_delegated host name present user_hostname password permissions
    conn g :
  g ∈ delegated (user host name present user_hostname password permissions
                      conn) →
  ∃ perms,
    g = permission host name perms "localhost" "*" "*" true true conn.
Proof.
  destruct present.
  - destruct (user_wanted_parts host name user_hostname password permissions
                conn) as [_ ->].
    destruct permissions as [perms|]; [|intros H; inversion H].
    destruct (truthy perms); [|intros H; inversion H].
    intros ->%list_elem_of_singleton. by exists perms.
  - rewrite user_unwanted_yields.
    destruct (bool_decide _); intros H; inversion H.
Qed.

Lemma database_delegated host name present collate charset db_user
    user_hostname user_permissions conn g :
  g ∈ delegated (database host name present collate charset db_user
                          user_hostname user_permissions conn) →
  ∃ u perms,
    g = permission host u perms user_hostname name "*" true true
                   default_connection.
Proof.
  destruct present.
  - destruct (database_wanted_parts host name collate charset db_user
                user_hostname user_permissions conn) as [_ ->].
    destruct db_user as [u|], user_permissions as [perms|];
      try (intros H; inversion H; fail).
    destruct (truthy u && truthy perms); [|intros H; inversion H].
    intros ->%list_elem_of_singleton. by exists u, perms.
  - rewrite database_unwanted_yields.
    destruct (bool_decide _); intros H; inversion H.
Qed.

(** ** database: what it yields *)

(** C6. With [present] false, [database] yields exactly one
    [DROP DATABASE name] when the name is among the existing databases and
    nothing otherwise; it yields no CREATE and makes no permission call,
    a [user] argument or not. *)
Theorem database_unwanted
    host name collate charset db_user user_hostname user_permissions conn :
  let ys := database host name false collate charset
                     db_user user_hostname user_permissions conn in
  let drop := make_execute_mysql_command ("DROP DATABASE " +:+ name) conn in
  (name ∈ mysql_databases host conn → ys = [Command drop])
  ∧ (name ∉ mysql_databases host conn → ys = [])
  ∧ (unroll ys = Ok [drop] ↔ name ∈ mysql_databases host conn)
  ∧ (unroll ys = Ok [] ↔ name ∉ mysql_databases host conn)
  ∧ is_drop_database drop = true
  ∧ (∀ c, c ∈ own_commands ys → is_create_database c = false)
  ∧ delegated ys = [].
Proof.
  intros ys drop. subst ys. rewrite database_unwanted_yields.
  destruct (bool_decide (name ∈ mysql_databases host conn)) eqn:Hin.
  - apply bool_decide_eq_true in Hin.
    repeat split; try done.
    + keyword.
    + intros c ->%list_elem_of_singleton. keyword.
  - apply bool_decide_eq_false in Hin.
    repeat split; try done.
    + keyword.
    + intros c Hc. inversion Hc.
Qed.

(** C7. With [present] true, [database] yields exactly one
    [CREATE DATABASE name], followed by [COLLATE c] and [CHARSET s] for the
    arguments that are given (and not empty), if and only if the name is not
    among the existing databases; for an existing database no CREATE and no
    other statement of its own is yielded, so collate and charset never
    alter it, and without a [user] argument nothing at all is yielded. *)
Theorem database_wanted
    host name collate charset db_user user_hostname user_permissions conn :
  let ys := database host name true collate charset
                     db_user user_hostname user_permissions conn in
  let create :=
    make_execute_mysql_command
      ("CREATE DATABASE " +:+ name
       +:+ clause "COLLATE" collate +:+ clause "CHARSET" charset) conn in
  (name ∉ mysql_databases host conn → own_commands ys = [create])
  ∧ (name ∈ mysql_databases host conn → own_commands ys = [])
  ∧ is_create_database create = true
  ∧ (∀ cmds, unroll ys = Ok cmds →
       List.filter is_create_database cmds
       = if bool_decide (name ∈ mysql_databases host conn)
         then [] else [create])
  ∧ (name ∈ mysql_databases host conn → db_user = None → ys = []).
Proof.
  intros ys create.
  destruct (database_wanted_parts host name collate charset db_user
              user_hostname user_permissions conn) as [Hown Hdelegated].
  fold ys in Hown, Hdelegated.
  subst create. rewrite <- create_database_sql_text.
  split; [|split; [|split; [|split]]].
  - intros Hout. by rewrite Hown, bool_decide_eq_false_2.
  - intros Hin. by rewrite Hown, bool_decide_eq_true_2.
  - apply create_database_kind.
  - intros cmds Hrun. rewrite (unroll_filter _ _ _ Hrun).
    + rewrite Hown. destruct (bool_decide _); [done|].
      cbn [List.filter]. by rewrite create_database_kind.
    + intros g c (u & perms & ->)%database_delegated Hc.
      by apply permission_commands in Hc as (_ & -> & _).
  - intros Hin ->. subst ys. unfold database. cbn [negb andb].
    by rewrite bool_decide_eq_true_2.
Qed.

(** ** user: what it yields *)

(** C8. With [present] false, [user] yields exactly one
    [DROP USER "name"@"hostname"] and stops, making no permission call even
    when permissions are given, if and only if ["name@hostname"] is among
    the current identities; otherwise it yields nothing. *)
Theorem user_unwanted
    host name user_hostname password permissions conn :
  let ys := user host name false user_hostname password permissions conn in
  let user_host := name +:+ "@" +:+ user_hostname in
  let drop :=
    make_execute_mysql_command
      ("DROP USER " +:+ Str.quoted name +:+ "@" +:+ Str.quoted user_hostname)
      conn in
  (user_host ∈ mysql_users host conn → ys = [Command drop])
  ∧ (user_host ∉ mysql_users host conn → ys = [])
  ∧ (unroll ys = Ok [drop] ↔ user_host ∈ mysql_users host conn)
  ∧ (unroll ys = Ok [] ↔ user_host ∉ mysql_users host conn)
  ∧ is_drop_user drop = true
  ∧ delegated ys = [].
Proof.
  intros ys user_host drop. subst ys. rewrite user_unwanted_yields.
  fold user_host.
  destruct (bool_decide (user_host ∈ mysql_users host conn)) eqn:Hin.
  - apply bool_decide_eq_true in Hin. by repeat split.
  - apply bool_decide_eq_false in Hin. by repeat split.
Qed.

(** C9. The password is used at creation only. When ["name@hostname"] is
    absent and [present] is true, [user] yields exactly one
    [CREATE USER "name"@"hostname"], followed by [IDENTIFIED BY "password"]
    exactly when a password is given (and not empty). When the identity
    exists, what is yielded does not depend on the password at all, no
    statement of its own is yielded, and without a permissions argument
    nothing is yielded. *)
Theorem user_wanted
    host name user_hostname password permissions conn :
  let run pw := user host name true user_hostname pw permissions conn in
  let user_host := name +:+ "@" +:+ user_hostname in
  let create :=
    make_execute_mysql_command
      ("CREATE USER " +:+ Str.quoted name +:+ "@" +:+ Str.quoted user_hostname
       +:+ identified password) conn in
  (user_host ∉ mysql_users host conn → own_commands (run password) = [create])
  ∧ is_create_user create = true
  ∧ (∀ cmds, unroll (run password) = Ok cmds →
       List.filter is_create_user cmds
       = if bool_decide (user_host ∈ mysql_users host conn)
         then [] else [create])
  ∧ (∀ p, p ≠ EmptyString →
       identified (Some p) = " IDENTIFIED BY " +:+ Str.quoted p)
  ∧ identified None = EmptyString
  ∧ identified (Some EmptyString) = EmptyString
  ∧ (user_host ∈ mysql_users host conn → own_commands (run password) = [])
  ∧ (user_host ∈ mysql_users host conn → ∀ other, run other = run password)
  ∧ (user_host ∈ mysql_users host conn → permissions = None →
     run password = []).
Proof.
  intros run user_host create.
  destruct (user_wanted_parts host name user_hostname password permissions
              conn) as [Hown Hdelegated].
  fold user_host in Hown. fold (run password) in Hown, Hdelegated.
  subst create. rewrite <- create_user_sql_text.
  split; [|split; [|split; [|split; [|split; [|split; [|split; [|split]]]]]]].
  - intros Hout. by rewrite Hown, bool_decide_eq_false_2.
  - apply create_user_kind.
  - intros cmds Hrun. rewrite (unroll_filter _ _ _ Hrun).
    + rewrite Hown. destruct (bool_decide _); [done|].
      cbn [List.filter]. by rewrite create_user_kind.
    + intros g c (perms & ->)%user_delegated Hc.
      by apply permission_commands in Hc as (_ & _ & _ & -> & _).
  - intros p Hp. unfold identified, truthy, string_truthy.
    by apply String.eqb_neq in Hp as ->.
  - reflexivity.
  - reflexivity.
  - intros Hin. by rewrite Hown, bool_decide_eq_true_2.
  - intros Hin other. subst run. cbv beta. unfold user. cbn [negb andb].
    fold user_host. by rewrite bool_decide_eq_true_2.
  - intros Hin ->. subst run. cbv beta. unfold user. cbn [negb andb].
    fold user_host. by rewrite bool_decide_eq_true_2.
Qed.

(** ** Delegation and the connection arguments *)

(** C10. Two [database] calls that differ only in the four connection
    arguments, on the same host, make the same delegated permission call:
    [database] does not pass the connection arguments on, the commands of
    the call carry the default connection, and the grants are read through
    it. The [user] operation passes all four on: every command of its
    delegated call carries the connection of the [user] call. *)
Theorem database_delegation_ignores_connection
    host name present collate charset db_user user_hostname user_permissions
    conn conn' :
  delegated (database host name present collate charset
                      db_user user_hostname user_permissions conn)
  = delegated (database host name present collate charset
                        db_user user_hostname user_permissions conn')
  ∧ (∀ g c,
       g ∈ delegated (database host name present collate charset
                               db_user user_hostname user_permissions conn) →
       c ∈ commands_of g → via c = default_connection)
  ∧ (∀ password permissions g c,
       g ∈ delegated (user host name present user_hostname
                           password permissions conn) →
       c ∈ commands_of g → via c = conn).
Proof.
  split; [|split].
  - destruct present.
    + destruct (database_wanted_parts host name collate charset db_user
                  user_hostname user_permissions conn) as [_ ->].
      by destruct (database_wanted_parts host name collate charset db_user
                     user_hostname user_permissions conn') as [_ ->].
    + rewrite !database_unwanted_yields.
      by destruct (bool_decide _), (bool_decide _).
  - intros g c (u & perms & ->)%database_delegated Hc.
    by apply permission_commands in Hc as [-> _].
  - intros password permissions g c (perms & ->)%user_delegated Hc.
    by apply permission_commands in Hc as [-> _].
Qed.

(** ** Running an operation twice *)

Section SecondPermission.
Context (host : facts) (user : string) (permissions : permissions_arg)
        (user_hostname database table : string) (conn : connection).

Lemma on_grants_lookup f (h : facts) :
  mysql_user_grants (Effect.on_grants user user_hostname conn f h)
                    user user_hostname conn
  = f (mysql_user_grants h user user_hostname conn).
Proof using Type. simpl. by rewrite decide_True. Qed.

Lemma effect_of_flush (h : facts) (flush : bool) :
  foldl (Effect.of_permission user permissions user_hostname database table)
        h
        (if flush then [make_execute_mysql_command "FLUSH PRIVILEGES" conn]
         else [])
  = h.
Proof using Type. by destruct flush. Qed.

Lemma effect_of_grant (h : facts) :
  Effect.of_permission user permissions user_hostname database table h
    (make_execute_mysql_command
       (permission_sql "GRANT" "TO" (ensure_list permissions)
                       (backquote database) (backquote table)
                       user user_hostname) conn)
  = Effect.on_grants user user_hostname conn
      (Effect.granted (database_table database table)
                      (ensure_list permissions)) h.
Proof using Type.
  unfold Effect.of_permission.
  by destruct (grant_sql_kind (ensure_list permissions) (backquote database)
                 (backquote table) user user_hostname conn) as (-> & _).
Qed.

Lemma effect_of_revoke (h : facts) :
  Effect.of_permission user permissions user_hostname database table h
    (make_execute_mysql_command
       (permission_sql "REVOKE" "FROM" (ensure_list permissions)
                       (backquote database) (backquote table)
                       user user_hostname) conn)
  = Effect.on_grants user user_hostname conn
      (Effect.revoked (database_table database table)
                      (ensure_list permissions)) h.
Proof using Type.
  unfold Effect.of_permission.
  by destruct (revoke_sql_kind (ensure_list permissions) (backquote database)
                 (backquote table) user user_hostname conn) as (-> & -> & _).
Qed.

(** After a GRANT every desired token other than ["ALL PRIVILEGES"] is
    found. *)
Lemma granted_satisfies (grants : gmap string Grant.entry) entry :
  "ALL PRIVILEGES" ∉ ensure_list permissions →
  Effect.granted (database_table database table) (ensure_list permissions)
                 grants !! database_table database table = Some entry →
  all_in (normalize <$> Grant.permissions entry) (ensure_list permissions)
  = true.
Proof using Type.
  intros Hfree. unfold Effect.granted. rewrite lookup_insert_eq.
  intros [= <-]. apply all_in_true. intros p Hp. simpl.
  rewrite fmap_app, elem_of_app. right.
  apply list_elem_of_fmap. exists p. split; [|done].
  symmetry. apply normalize_other. by intros ->.
Qed.

(** After a REVOKE of a non-empty list the desired tokens are no longer all
    found. *)
Lemma revoked_unsatisfies (grants : gmap string Grant.entry) entry entry' :
  ensure_list permissions ≠ [] →
  grants !! database_table database table = Some entry →
  Effect.revoked (database_table database table) (ensure_list permissions)
                 grants !! database_table database table = Some entry' →
  all_in (normalize <$> Grant.permissions entry') (ensure_list permissions)
  = false.
Proof using Type.
  intros Hne Hentry. unfold Effect.revoked. rewrite Hentry, lookup_insert_eq.
  intros [= <-]. apply all_in_false.
  destruct (ensure_list permissions) as [|p rest]; [done|].
  exists p. split; [left|]. simpl.
  intros (t & -> & Hin)%list_elem_of_fmap.
  apply list_elem_of_filter in Hin as [Hout _]. apply Hout. left.
Qed.

(** The second run of [permission], on the host the first run leaves. *)
Lemma permission_twice present flush :
  is_Some (mysql_user_grants host user user_hostname conn
             !! database_table database table) →
  (present = true → "ALL PRIVILEGES" ∉ ensure_list permissions) →
  (present = false → ensure_list permissions ≠ []) →
  permission (after_permission host user permissions user_hostname
                               database table present flush conn)
             user permissions user_hostname database table
             present flush conn = Ok [].
Proof using Type.
  intros [entry Hentry] Hgrant Hrevoke. unfold after_permission.
  rewrite (permission_with_entry _ _ _ _ _ _ _ _ _ _ Hentry).
  cbn [commands_of].
  destruct (all_in _ (ensure_list permissions)) eqn:Hall, present;
    cbn [decide_action negb andb emitted foldl].
  - rewrite (permission_with_entry _ _ _ _ _ _ _ _ _ _ Hentry).
    by rewrite Hall.
  - rewrite effect_of_revoke, effect_of_flush.
    destruct (Effect.revoked (database_table database table)
                (ensure_list permissions)
                (mysql_user_grants host user user_hostname conn)
              !! database_table database table) as [entry'|] eqn:Hentry'.
    + rewrite (permission_with_entry _ _ _ _ _ _ _ _ _ entry')
        by by rewrite on_grants_lookup.
      by rewrite (revoked_unsatisfies _ _ _ (Hrevoke eq_refl) Hentry Hentry').
    + unfold Effect.revoked in Hentry'.
      by rewrite Hentry, lookup_insert_eq in Hentry'.
  - rewrite effect_of_grant, effect_of_flush.
    destruct (Effect.granted (database_table database table)
                (ensure_list permissions)
                (mysql_user_grants host user user_hostname conn)
              !! database_table database table) as [entry'|] eqn:Hentry'.
    + rewrite (permission_with_entry _ _ _ _ _ _ _ _ _ entry')
        by by rewrite on_grants_lookup.
      by rewrite (granted_satisfies _ _ (Hgrant eq_refl) Hentry').
    + unfold Effect.granted in Hentry'.
      by rewrite lookup_insert_eq in Hentry'.
  - rewrite (permission_with_entry _ _ _ _ _ _ _ _ _ _ Hentry).
    by rewrite Hall.
Qed.
End SecondPermission.

(** [permission] reads the host through the grants of its user only. *)
Lemma permission_ext (h1 h2 : facts) user permissions user_hostname
    database table present flush conn :
  mysql_user_grants h1 = mysql_user_grants h2 →
  permission h1 user permissions user_hostname database table
             present flush conn
  = permission h2 user permissions user_hostname database table
               present flush conn.
Proof. intros H. unfold permission. by rewrite H. Qed.

Section EffectFrames.
Context (user : string) (permissions : permissions_arg)
        (user_hostname database table : string).

Lemma permission_effect_keeps (h : facts) (cmds : list command) :
  mysql_users
    (foldl (Effect.of_permission user permissions user_hostname
                                 database table) h cmds)
  = mysql_users h
  ∧ mysql_databases
      (foldl (Effect.of_permission user permissions user_hostname
                                   database table) h cmds)
    = mysql_databases h.
Proof using Type.
  revert h. induction cmds as [|c cmds IH]; intros h; [done|].
  cbn [foldl]. destruct (IH (Effect.of_permission
                               user permissions user_hostname
                               database table h c)) as [-> ->].
  unfold Effect.of_permission. by destruct (is_grant c), (is_revoke c).
Qed.

Lemma permission_effect_ext (h1 h2 : facts) (cmds : list command) :
  mysql_user_grants h1 = mysql_user_grants h2 →
  mysql_user_grants
    (foldl (Effect.of_permission user permissions user_hostname
                                 database table) h1 cmds)
  = mysql_user_grants
      (foldl (Effect.of_permission user permissions user_hostname
                                   database table) h2 cmds).
Proof using Type.
  revert h1 h2. induction cmds as [|c cmds IH]; intros h1 h2 H; [done|].
  cbn [foldl]. apply IH. unfold Effect.of_permission.
  destruct (is_grant c), (is_revoke c); simpl; by rewrite ?H.
Qed.
End EffectFrames.

Lemma user_effect_keeps name user_hostname (h : facts) (cmds : list command) :
  mysql_user_grants (foldl (Effect.of_user name user_hostname) h cmds)
  = mysql_user_grants h.
Proof.
  revert h. induction cmds as [|c cmds IH]; intros h; [done|].
  cbn [foldl]. rewrite IH. unfold Effect.of_user.
  by destruct (is_create_user c), (is_drop_user c).
Qed.

Lemma database_effect_keeps name (h : facts) (cmds : list command) :
  mysql_user_grants (foldl (Effect.of_database name) h cmds)
  = mysql_user_grants h.
Proof.
  revert h. induction cmds as [|c cmds IH]; intros h; [done|].
  cbn [foldl]. rewrite IH. unfold Effect.of_database.
  by destruct (is_create_database c), (is_drop_database c).
Qed.

(** The second run of a delegated permission call, on a host that has seen
    the first run's commands after changes that leave the grants alone. *)
Lemma delegated_twice (host host' : facts) user permissions user_hostname
    database table conn :
  mysql_user_grants host' = mysql_user_grants host →
  is_Some (mysql_user_grants host user user_hostname conn
             !! database_table database table) →
  "ALL PRIVILEGES" ∉ ensure_list permissions →
  permission
    (foldl (Effect.of_permission user permissions user_hostname database table)
           host'
           (commands_of (permission host user permissions user_hostname
                                    database table true true conn)))
    user permissions user_hostname database table true true conn = Ok [].
Proof.
  intros Hsame Hentry Hfree.
  rewrite <- (permission_twice host user permissions user_hostname
                database table conn true true Hentry (fun _ => Hfree))
    by done.
  apply permission_ext. unfold after_permission.
  by apply permission_effect_ext.
Qed.

(** The second run of [user]. *)
Lemma user_twice host name present user_hostname password permissions conn :
  (present = true → ∀ perms, permissions = Some perms → truthy perms = true →
     is_Some (mysql_user_grants host name "localhost" conn !! "*.*")
     ∧ "ALL PRIVILEGES" ∉ ensure_list perms) →
  unroll (user (after_user host name present user_hostname
                           password permissions conn)
               name present user_hostname password permissions conn)
  = Ok [].
Proof.
  intros Hperm. unfold after_user.
  set (user_host := name +:+ "@" +:+ user_hostname).
  destruct present.
  - destruct (user_wanted_parts host name user_hostname password permissions
                conn) as [-> ->].
    fold user_host.
    set (host' := foldl (Effect.of_user name user_hostname) host _).
    assert (mysql_user_grants host' = mysql_user_grants host) as Hsame
      by apply user_effect_keeps.
    assert (user_host ∈ mysql_users host' conn) as Hin.
    { subst host'.
      destruct (bool_decide (user_host ∈ mysql_users host conn)) eqn:Hwas.
      - by apply bool_decide_eq_true in Hwas.
      - cbn [foldl]. unfold Effect.of_user.
        rewrite create_user_kind.
        simpl. rewrite decide_True by done. fold user_host.
        apply elem_of_union. left. by apply elem_of_singleton. }
    clearbody host'. unfold user. cbn [negb andb]. fold user_host.
    destruct permissions as [perms|].
    + destruct (permission_effect_keeps name perms "localhost" "*" "*" host'
                  (concat (commands_of <$>
                     (if truthy perms
                      then [permission host name perms "localhost" "*" "*"
                                       true true conn]
                      else [])))) as [-> _].
      rewrite bool_decide_eq_true_2 by done. cbn [negb app].
      destruct (truthy perms) eqn:Htruthy; [|done].
      destruct (Hperm eq_refl perms eq_refl Htruthy) as [Hentry Hfree].
      cbn [fmap list_fmap concat]. rewrite app_nil_r. cbn [unroll].
      by rewrite (delegated_twice host host' name perms "localhost" "*" "*"
                    conn Hsame Hentry Hfree).
    + by rewrite bool_decide_eq_true_2 by done.
  - assert (delegated (user host name false user_hostname password permissions
                            conn) = []) as ->.
    { rewrite user_unwanted_yields. by destruct (bool_decide _). }
    assert (user_host ∉ mysql_users
              (foldl (Effect.of_user name user_hostname) host
                 (own_commands
                    (user host name false user_hostname password
                          permissions conn))) conn) as Hout.
    { unfold user. cbn [negb]. fold user_host.
      destruct (bool_decide (user_host ∈ mysql_users host conn)) eqn:Hwas.
      - cbn [own_commands omap list_omap foldl]. unfold Effect.of_user.
        assert (is_create_user
                  (make_execute_mysql_command
                     (drop_user_sql name user_hostname) conn) = false) as ->
          by keyword.
        assert (is_drop_user
                  (make_execute_mysql_command
                     (drop_user_sql name user_hostname) conn) = true) as ->
          by keyword.
        simpl. rewrite decide_True by done. fold user_host.
        rewrite elem_of_difference, elem_of_singleton. by intros [_ H].
      - by apply bool_decide_eq_false in Hwas. }
    destruct permissions as [perms|]; cbn [fmap list_fmap concat foldl];
      unfold user at 1; cbn [negb]; fold user_host;
      by rewrite bool_decide_eq_false_2.
Qed.

(** The second run of [database]. *)
Lemma database_twice host name present collate charset db_user user_hostname
    user_permissions conn :
  (present = true → ∀ u perms,
     db_user = Some u → user_permissions = Some perms →
     truthy u = true → truthy perms = true →
     is_Some (mysql_user_grants host u user_hostname default_connection
                !! database_table name "*")
     ∧ "ALL PRIVILEGES" ∉ ensure_list perms) →
  unroll (database (after_database host name present collate charset
                                   db_user user_hostname user_permissions
                                   conn)
                   name present collate charset
                   db_user user_hostname user_permissions conn)
  = Ok [].
Proof.
  intros Hperm. unfold after_database.
  destruct present.
  - destruct (database_wanted_parts host name collate charset db_user
                user_hostname user_permissions conn) as [-> ->].
    set (host' := foldl (Effect.of_database name) host _).
    assert (mysql_user_grants host' = mysql_user_grants host) as Hsame
      by apply database_effect_keeps.
    assert (name ∈ mysql_databases host' conn) as Hin.
    { subst host'.
      destruct (bool_decide (name ∈ mysql_databases host conn)) eqn:Hwas.
      - by apply bool_decide_eq_true in Hwas.
      - cbn [foldl]. unfold Effect.of_database.
        rewrite create_database_kind.
        simpl. rewrite decide_True by done.
        apply elem_of_union. left. by apply elem_of_singleton. }
    clearbody host'. unfold database. cbn [negb andb].
    destruct db_user as [u|], user_permissions as [perms|];
      try by rewrite bool_decide_eq_true_2 by done.
    destruct (permission_effect_keeps u perms user_hostname name "*" host'
                (concat (commands_of <$>
                   (if truthy u && truthy perms
                    then [permission host u perms user_hostname name "*"
                                     true true default_connection]
                    else [])))) as [_ ->].
    rewrite bool_decide_eq_true_2 by done. cbn [negb app].
    destruct (truthy u) eqn:Hu, (truthy perms) eqn:Hp; try done.
    destruct (Hperm eq_refl u perms eq_refl eq_refl Hu Hp) as [Hentry Hfree].
    cbn [andb fmap list_fmap concat]. rewrite app_nil_r. cbn [unroll].
    by rewrite (delegated_twice host host' u perms user_hostname name "*"
                  default_connection Hsame Hentry Hfree).
  - assert (delegated (database host name false collate charset db_user
                                user_hostname user_permissions conn) = [])
      as ->.
    { rewrite database_unwanted_yields. by destruct (bool_decide _). }
    assert (name ∉ mysql_databases
              (foldl (Effect.of_database name) host
                 (own_commands
                    (database host name false collate charset db_user
                              user_hostname user_permissions conn))) conn)
      as Hout.
    { unfold database. cbn [negb].
      destruct (bool_decide (name ∈ mysql_databases host conn)) eqn:Hwas.
      - cbn [own_commands omap list_omap foldl]. unfold Effect.of_database.
        assert (is_create_database
                  (make_execute_mysql_command (drop_database_sql name) conn)
                = false) as -> by keyword.
        assert (is_drop_database
                  (make_execute_mysql_command (drop_database_sql name) conn)
                = true) as -> by keyword.
        simpl. rewrite decide_True by done.
        rewrite elem_of_difference, elem_of_singleton. by intros [_ H].
      - by apply bool_decide_eq_false in Hwas. }
    destruct db_user as [u|], user_permissions as [perms|];
      cbn [fmap list_fmap concat foldl];
      unfold database at 1; cbn [negb];
      by rewrite bool_decide_eq_false_2.
Qed.

(** C4, as stated, fails. A desired ["ALL PRIVILEGES"] is compared with
    tokens from which that very spelling has been normalized away, so the
    GRANT is yielded again on the second run, by [permission] and by the
    permission call that [database] delegates to; and a REVOKE of an empty
    list, which the vacuous subset test lets through, is yielded again as
    well. *)
Lemma second_run_repeats :
  permission
    (after_permission usage_only "bob" (PermString "ALL PRIVILEGES")
                      "localhost" "*" "*" true true default_connection)
    "bob" (PermString "ALL PRIVILEGES") "localhost" "*" "*" true true
    default_connection
  = Ok [make_execute_mysql_command
          (permission_sql "GRANT" "TO" ["ALL PRIVILEGES"] "*" "*"
                          "bob" "localhost") default_connection;
        make_execute_mysql_command "FLUSH PRIVILEGES" default_connection]
  ∧ unroll
      (database
         (after_database usage_only "shop" true None None (Some "bob")
                         "localhost" (Some (PermString "ALL PRIVILEGES"))
                         default_connection)
         "shop" true None None (Some "bob") "localhost"
         (Some (PermString "ALL PRIVILEGES")) default_connection)
    = Ok [make_execute_mysql_command
            (permission_sql "GRANT" "TO" ["ALL PRIVILEGES"] "`shop`" "*"
                            "bob" "localhost") default_connection;
          make_execute_mysql_command "FLUSH PRIVILEGES" default_connection]
  ∧ permission
      (after_permission usage_only "bob" (PermList []) "localhost" "*" "*"
                        false true default_connection)
      "bob" (PermList []) "localhost" "*" "*" false true default_connection
    = Ok [make_execute_mysql_command
            (permission_sql "REVOKE" "FROM" [] "*" "*" "bob" "localhost")
            default_connection;
          make_execute_mysql_command "FLUSH PRIVILEGES" default_connection].
Proof. by vm_compute. Qed.

(** C4, amended. A second run on the host updated by the commands of the
    first yields no command: for [permission] when the entry for the
    computed key exists, the desired list is free of ["ALL PRIVILEGES"] if
    [present] is true and is not empty if [present] is false; for [user] and
    for [database] always when they make no permission call, and otherwise
    when the entry exists in the grants their delegated call reads and the
    desired list is free of ["ALL PRIVILEGES"]. *)
Theorem second_run_yields_nothing :
  (∀ host user permissions user_hostname database table present flush conn,
     is_Some (mysql_user_grants host user user_hostname conn
                !! database_table database table) →
     (present = true → "ALL PRIVILEGES" ∉ ensure_list permissions) →
     (present = false → ensure_list permissions ≠ []) →
     permission (after_permission host user permissions user_hostname
                                  database table present flush conn)
                user permissions user_hostname database table
                present flush conn = Ok [])
  ∧ (∀ host name present user_hostname password permissions conn,
       (present = true → ∀ perms,
          permissions = Some perms → truthy perms = true →
          is_Some (mysql_user_grants host name "localhost" conn !! "*.*")
          ∧ "ALL PRIVILEGES" ∉ ensure_list perms) →
       unroll (user (after_user host name present user_hostname
                                password permissions conn)
                    name present user_hostname password permissions conn)
       = Ok [])
  ∧ (∀ host name present collate charset db_user user_hostname
       user_permissions conn,
       (present = true → ∀ u perms,
          db_user = Some u → user_permissions = Some perms →
          truthy u = true → truthy perms = true →
          is_Some (mysql_user_grants host u user_hostname default_connection
                     !! database_table name "*")
          ∧ "ALL PRIVILEGES" ∉ ensure_list perms) →
       unroll (database (after_database host name present collate charset
                                        db_user user_hostname user_permissions
                                        conn)
                        name present collate charset
                        db_user user_hostname user_permissions conn)
       = Ok []).
Proof.
  split; [|split].
  - intros. by apply permission_twice.
  - intros. by apply user_twice.
  - intros. by apply database_twice.
Qed.

(** Second runs on a host without the privileges asked for: a grant on an
    existing database, a new user with a global grant, a new database with
    a grant to an existing user. *)
Lemma second_run_yields_nothing_witness :
  permission
    (after_permission usage_only "bob" (PermList ["SELECT"; "INSERT"])
                      "localhost" "shop" "*" true true default_connection)
    "bob" (PermList ["SELECT"; "INSERT"]) "localhost" "shop" "*" true true
    default_connection = Ok []
  ∧ unroll
      (user (after_user usage_only "al" true "localhost" (Some "s3cret")
                        (Some (PermString "SELECT")) default_connection)
            "al" true "localhost" (Some "s3cret")
            (Some (PermString "SELECT")) default_connection) = Ok []
  ∧ unroll
      (database
         (after_database usage_only "blog" true (Some "utf8_bin") None
                         (Some "bob") "localhost" (Some (PermString "ALL"))
                         (Connection (Some "root") None None None))
         "blog" true (Some "utf8_bin") None (Some "bob") "localhost"
         (Some (PermString "ALL")) (Connection (Some "root") None None None))
    = Ok [].
Proof.
  destruct second_run_yields_nothing as (Hpermission & Huser & Hdatabase).
  split; [|split].
  - apply Hpermission.
    + vm_compute. eexists. reflexivity.
    + intros _. apply (bool_decide_unpack _). vm_compute. exact I.
    + intros H. discriminate H.
  - apply Huser. intros _ perms [= <-] _. split.
    + vm_compute. eexists. reflexivity.
    + apply (bool_decide_unpack _). vm_compute. exact I.
  - apply Hdatabase. intros _ u perms [= <-] [= <-] _ _. split.
    + vm_compute. eexists. reflexivity.
    + apply (bool_decide_unpack _). vm_compute. exact I.
Defined.

(** * Further properties *)

(** ** When the operations fail *)

Lemma unroll_app (ys1 ys2 : list yielded) :
  unroll (ys1 ++ ys2)
  = cs1 ← unroll ys1; cs2 ← unroll ys2; Ok (cs1 ++ cs2).
Proof.
  induction ys1 as [|[c|g] ys1 IH]; cbn [app unroll].
  - cbn [mbind result_bind]. by destruct (unroll ys2).
  - rewrite IH. destruct (unroll ys1) as [cs1|k]; [|done].
    cbn [mbind result_bind]. by destruct (unroll ys2).
  - rewrite IH. destruct g as [cs|k]; [|done].
    destruct (unroll ys1) as [cs1|k]; [|done].
    cbn [mbind result_bind]. destruct (unroll ys2) as [cs2|k]; [|done].
    cbn [mbind result_bind]. by rewrite app_assoc.
Qed.

Lemma unroll_generator (g : result (list command)) :
  unroll [Generator g] = g.
Proof. destruct g as [cs|k]; cbn; [by rewrite app_nil_r | done]. Qed.

(** [permission] fails exactly when the grant snapshot has no entry for the
    computed key, and the [KeyError] then names that key; with the entry it
    runs to its end. *)
Theorem permission_fails_iff_entry_missing
    host user permissions user_hostname database table present flush conn :
  (∀ k, permission host user permissions user_hostname database table
                   present flush conn = KeyError k
        ↔ mysql_user_grants host user user_hostname conn
            !! database_table database table = None
          ∧ k = database_table database table)
  ∧ ((∃ cmds, permission host user permissions user_hostname database table
                         present flush conn = Ok cmds)
     ↔ is_Some (mysql_user_grants host user user_hostname conn
                  !! database_table database table)).
Proof.
  destruct (mysql_user_grants host user user_hostname conn
              !! database_table database table) as [entry|] eqn:Hentry.
  - rewrite (permission_with_entry _ _ _ _ _ _ _ _ _ _ Hentry). split.
    + intros k. split; [done | by intros [? _]].
    + split; [by eexists | by eexists].
  - rewrite permission_without_entry by done. split.
    + intros k. split; [by intros [= <-] | by intros [_ ->]].
    + split; [by intros [cmds ?] | by intros [? ?]].
Qed.

(** [user] fails exactly when the user is wanted, permissions are given and
    the grants read for [name] at the local host have no global entry: the
    nested permission call raises, also right after a [CREATE USER] was
    yielded. A [user] call with [present] false never fails. *)
Theorem user_fails_iff
    host name present user_hostname password permissions conn k :
  unroll (user host name present user_hostname password permissions conn)
  = KeyError k
  ↔ present = true
    ∧ (∃ perms, permissions = Some perms ∧ truthy perms = true)
    ∧ mysql_user_grants host name "localhost" conn !! "*.*" = None
    ∧ k = "*.*".
Proof.
  destruct present.
  - unfold user. cbn [negb andb]. rewrite unroll_app.
    assert (∃ own, unroll
              (if negb (bool_decide
                          (name +:+ "@" +:+ user_hostname
                           ∈ mysql_users host conn))
               then [Command (make_execute_mysql_command
                                (create_user_sql name user_hostname password)
                                conn)]
               else []) = Ok own) as [own ->]
      by (destruct (bool_decide _); by eexists).
    cbn [mbind result_bind].
    destruct permissions as [perms|].
    + destruct (truthy perms) eqn:Htruthy.
      * rewrite unroll_generator.
        destruct (mysql_user_grants host name "localhost" conn !! "*.*")
          as [entry|] eqn:Hentry.
        -- rewrite (permission_with_entry _ _ _ _ "*" "*" _ _ _ _ Hentry).
           cbn [mbind result_bind]. split; [done | by intros (_ & _ & ? & _)].
        -- rewrite (permission_without_entry _ _ _ _ "*" "*") by done.
           cbn [mbind result_bind]. split.
           ++ intros [= <-]. repeat split; try done. by exists perms.
           ++ by intros (_ & _ & _ & ->).
      * cbn [unroll mbind result_bind]. split; [done|].
        intros (_ & (p & [= <-] & Hp) & _). congruence.
    + cbn [unroll mbind result_bind]. split; [done|].
      by intros (_ & (p & ? & _) & _).
  - rewrite user_unwanted_yields.
    destruct (bool_decide _); (split; [done | by intros [? _]]).
Qed.

(** [database] fails exactly when the database is wanted, a user and
    permissions are given and the grants read for that user through the
    default connection have no entry for the database: the nested
    permission call raises, also right after a [CREATE DATABASE] was
    yielded. A [database] call with [present] false never fails. *)
Theorem database_fails_iff
    host name present collate charset db_user user_hostname user_permissions
    conn k :
  unroll (database host name present collate charset
                   db_user user_hostname user_permissions conn)
  = KeyError k
  ↔ present = true
    ∧ (∃ u perms, db_user = Some u ∧ user_permissions = Some perms
                  ∧ truthy u = true ∧ truthy perms = true
                  ∧ mysql_user_grants host u user_hostname default_connection
                      !! database_table name "*" = None)
    ∧ k = database_table name "*".
Proof.
  destruct present.
  - unfold database. cbn [negb andb]. rewrite unroll_app.
    assert (∃ own, unroll
              (if negb (bool_decide (name ∈ mysql_databases host conn))
               then [Command (make_execute_mysql_command
                                (create_database_sql name collate charset)
                                conn)]
               else []) = Ok own) as [own ->]
      by (destruct (bool_decide _); by eexists).
    cbn [mbind result_bind].
    destruct db_user as [u|], user_permissions as [perms|];
      try (cbn [unroll mbind result_bind]; split; [done|];
           by intros (_ & (? & ? & ? & ? & _) & _)).
    destruct (truthy u) eqn:Hu, (truthy perms) eqn:Hp; cbn [andb];
      try (cbn [unroll mbind result_bind]; split; [done|];
           intros (_ & (? & ? & [= <-] & [= <-] & ? & ? & _) & _);
           congruence).
    rewrite unroll_generator.
    destruct (mysql_user_grants host u user_hostname default_connection
                !! database_table name "*") as [entry|] eqn:Hentry.
    + rewrite (permission_with_entry _ _ _ _ _ _ _ _ _ _ Hentry).
      cbn [mbind result_bind]. split; [done|].
      intros (_ & (? & ? & [= <-] & [= <-] & _ & _ & ?) & _). congruence.
    + rewrite permission_without_entry by done.
      cbn [mbind result_bind]. split.
      * intros [= <-]. repeat split. by exists u, perms.
      * by intros (_ & _ & ->).
  - rewrite database_unwanted_yields.
    destruct (bool_decide _); (split; [done | by intros [? _]]).
Qed.

(** ** How the operations compose *)

(** A [user] call with permissions yields what the same call without
    permissions yields, followed by what [permission] yields for the name
    at the local host, global scope, through the same connection; when the
    user is not wanted the permissions make no difference. *)
Theorem user_then_permission
    host name user_hostname password perms conn :
  truthy perms = true →
  unroll (user host name true user_hostname password (Some perms) conn)
  = (own ← unroll (user host name true user_hostname password None conn);
     cs ← permission host name perms "localhost" "*" "*" true true conn;
     Ok (own ++ cs))
  ∧ user host name false user_hostname password (Some perms) conn
    = user host name false user_hostname password None conn.
Proof.
  intros Htruthy. split; [|done].
  unfold user. cbn [negb andb]. rewrite Htruthy.
  destruct (bool_decide _); cbn [negb app unroll mbind result_bind];
    destruct (permission _ _ _ _ _ _ _ _ _) as [cs|k];
    cbn [app mbind result_bind]; by rewrite ?app_nil_r.
Qed.

Lemma user_then_permission_witness :
  unroll (user bob_local "al" true "%" (Some "s3") (Some (PermString "SELECT"))
               default_connection)
  = Ok [make_execute_mysql_command
          (create_user_sql "al" "%" (Some "s3")) default_connection;
        make_execute_mysql_command
          (permission_sql "GRANT" "TO" ["SELECT"] "*" "*" "al" "localhost")
          default_connection;
        make_execute_mysql_command "FLUSH PRIVILEGES" default_connection].
Proof.
  destruct (user_then_permission bob_local "al" "%" (Some "s3")
              (PermString "SELECT") default_connection eq_refl) as [-> _].
  reflexivity.
Defined.

(** A [database] call with a user and permissions yields what the same
    call without a user yields, followed by what [permission] yields for
    that user on the database, every table, through the default
    connection. *)
Theorem database_then_permission
    host name collate charset u user_hostname perms conn :
  truthy u = true → truthy perms = true →
  unroll (database host name true collate charset
                   (Some u) user_hostname (Some perms) conn)
  = (own ← unroll (database host name true collate charset
                            None user_hostname (Some perms) conn);
     cs ← permission host u perms user_hostname name "*" true true
                     default_connection;
     Ok (own ++ cs)).
Proof.
  intros Hu Hp.
  unfold database. cbn [negb andb].
  rewrite Hu, Hp. cbn [andb].
  destruct (bool_decide _); cbn [negb app unroll mbind result_bind];
    destruct (permission _ _ _ _ _ _ _ _ _) as [cs|k];
    cbn [app mbind result_bind]; by rewrite ?app_nil_r.
Qed.

Lemma database_then_permission_witness :
  unroll (database usage_only "blog" true None None (Some "bob") "localhost"
                   (Some (PermString "ALL")) default_connection)
  = Ok [make_execute_mysql_command
          (create_database_sql "blog" None None) default_connection;
        make_execute_mysql_command
          (permission_sql "GRANT" "TO" ["ALL"] "`blog`" "*" "bob" "localhost")
          default_connection;
        make_execute_mysql_command "FLUSH PRIVILEGES" default_connection].
Proof.
  rewrite (database_then_permission usage_only "blog" None None "bob"
             "localhost" (PermString "ALL") default_connection
             eq_refl eq_refl).
  reflexivity.
Defined.

(** The permission call that [user] delegates to never sees
    [user_hostname]: whatever the hostname of the user, the same nested call
    is made, and every GRANT it yields is for the name at the local host, on
    the global scope. *)
Theorem user_permissions_go_to_localhost
    host name user_hostname password permissions conn :
  delegated (user host name true user_hostname password permissions conn)
  = delegated (user host name true "localhost" password permissions conn)
  ∧ (∀ g c,
       g ∈ delegated (user host name true user_hostname password permissions
                           conn) →
       c ∈ commands_of g → is_grant c = true →
       ∃ perms, permissions = Some perms
                ∧ sql c = permission_sql "GRANT" "TO" (ensure_list perms)
                                         "*" "*" name "localhost").
Proof.
  destruct (user_wanted_parts host name user_hostname password permissions
              conn) as [_ ->].
  destruct (user_wanted_parts host name "localhost" password permissions
              conn) as [_ ->].
  split; [done|].
  intros g c Hg Hc Hgrant.
  destruct permissions as [perms|]; [|inversion Hg].
  destruct (truthy perms); [|inversion Hg].
  apply list_elem_of_singleton in Hg as ->. exists perms. split; [done|].
  destruct (mysql_user_grants host name "localhost" conn !! "*.*")
    as [entry|] eqn:Hentry.
  - rewrite (permission_with_entry _ _ _ _ "*" "*" _ _ _ _ Hentry) in Hc.
    destruct (all_in _ _);
      cbn [decide_action negb andb commands_of emitted] in Hc.
    + inversion Hc.
    + apply elem_of_cons in Hc as [-> | Hc]; [done|].
      apply list_elem_of_singleton in Hc as ->. discriminate Hgrant.
  - rewrite (permission_without_entry _ _ _ _ "*" "*") in Hc by done.
    inversion Hc.
Qed.

(** ** The escaping of backticks *)

Lemma escape_backticks_head (s rest : string) :
  Str.escape_backticks s ≠ String "096"%char rest.
Proof.
  destruct s as [|c s]; [done|]. simpl.
  destruct (Ascii.eqb c "096"%char) eqn:Hc; [done|].
  intros [= -> _]. discriminate Hc.
Qed.

Lemma escape_backticks_no_bare (after_backslash : bool) (s : string) :
  bare_backtick after_backslash (Str.escape_backticks s) = false.
Proof.
  revert after_backslash. induction s as [|c s IH]; intros b; [done|]. simpl.
  destruct (Ascii.eqb c "096"%char) eqn:Hc.
  - simpl. by rewrite IH.
  - simpl. by rewrite Hc, IH.
Qed.

(** No command that [permission] yields holds a backtick that does not
    directly follow a backslash, whatever backticks the user, the hostname,
    the scope or the tokens hold. *)
Theorem permission_escapes_every_backtick
    host user permissions user_hostname database table present flush conn c :
  c ∈ commands_of (permission host user permissions user_hostname
                              database table present flush conn) →
  bare_backtick false (sql c) = false.
Proof.
  destruct (mysql_user_grants host user user_hostname conn
              !! database_table database table) as [entry|] eqn:Hentry.
  - rewrite (permission_with_entry _ _ _ _ _ _ _ _ _ _ Hentry).
    destruct (all_in _ _), present, flush;
      cbn [decide_action negb andb commands_of emitted];
      rewrite ?elem_of_cons, ?elem_of_nil;
      intros H; repeat destruct H as [H | H]; try done; subst c;
      try reflexivity; apply escape_backticks_no_bare.
  - rewrite permission_without_entry by done. intros H. inversion H.
Qed.

Lemma permission_escapes_every_backtick_witness :
  bare_backtick false
    (permission_sql "GRANT" "TO" ["SELECT"; "INSERT"] "`db`" "*"
                    "bob" "localhost")
  = false.
Proof.
  apply (permission_escapes_every_backtick db_select_only "bob"
           (PermList ["SELECT"; "INSERT"]) "localhost" "db" "*" true true
           default_connection
           (make_execute_mysql_command
              (permission_sql "GRANT" "TO" ["SELECT"; "INSERT"] "`db`" "*"
                              "bob" "localhost") default_connection)).
  apply (bool_decide_unpack _). vm_compute. exact I.
Defined.

Lemma escape_backticks_length (s : string) :
  String.length (Str.escape_backticks s) = String.length s + backticks s.
Proof.
  induction s as [|c s IH]; [done|]. simpl.
  destruct (Ascii.eqb c "096"%char); simpl; rewrite IH; lia.
Qed.

(** The escaping loses nothing: two texts with the same escaped form are the
    same text; a text is left as it is exactly when it holds no backtick,
    and otherwise grows by one character for each backtick. *)
Theorem escape_backticks_faithful (s1 s2 : string) :
  (Str.escape_backticks s1 = Str.escape_backticks s2 → s1 = s2)
  ∧ (Str.escape_backticks s1 = s1 ↔ backticks s1 = 0)
  ∧ String.length (Str.escape_backticks s1)
    = String.length s1 + backticks s1.
Proof.
  split; [|split].
  - revert s2. induction s1 as [|c1 s1 IH]; intros [|c2 s2]; simpl.
    + done.
    + by destruct (Ascii.eqb c2 "096"%char).
    + by destruct (Ascii.eqb c1 "096"%char).
    + destruct (Ascii.eqb c1 "096"%char) eqn:H1,
               (Ascii.eqb c2 "096"%char) eqn:H2.
      * apply Ascii.eqb_eq in H1 as ->. apply Ascii.eqb_eq in H2 as ->.
        intros [= H]. by rewrite (IH _ H).
      * intros [= <- H]. symmetry in H. by apply escape_backticks_head in H.
      * intros [= -> H]. by apply escape_backticks_head in H.
      * intros [= -> H]. by rewrite (IH _ H).
  - split.
    + intros H. pose proof (escape_backticks_length s1) as Hlen.
      rewrite H in Hlen. lia.
    + induction s1 as [|c s IH]; [done|]. simpl.
      destruct (Ascii.eqb c "096"%char); [done|].
      intros H. by rewrite IH.
  - apply escape_backticks_length.
Qed.

(** ** How the grant snapshot is read *)

Lemma all_in_mono (existing existing' wanted wanted' : list string) :
  (∀ t, t ∈ existing → t ∈ existing') →
  (∀ p, p ∈ wanted' → p ∈ wanted) →
  all_in existing wanted = true → all_in existing' wanted' = true.
Proof.
  rewrite !all_in_true. intros Hmore Hfewer Hall p Hp.
  by apply Hmore, Hall, Hfewer.
Qed.

Lemma all_in_ext (existing existing' wanted : list string) :
  (∀ t, t ∈ existing ↔ t ∈ existing') →
  all_in existing wanted = all_in existing' wanted.
Proof.
  intros Hsame.
  destruct (all_in existing wanted) eqn:H, (all_in existing' wanted) eqn:H';
    try done.
  - rewrite (all_in_mono existing existing' wanted wanted) in H'; try done.
    intros t. apply Hsame.
  - rewrite (all_in_mono existing' existing wanted wanted) in H; try done.
    intros t. apply Hsame.
Qed.

(** [permission] reads the tokens of an entry as a set, after
    normalization: two hosts whose entries hold the same tokens up to order,
    repetition and the spelling of ["ALL PRIVILEGES"] get the same
    commands. *)
Theorem permission_reads_entry_as_set
    host host' user permissions user_hostname database table present flush
    conn entry entry' :
  mysql_user_grants host user user_hostname conn
    !! database_table database table = Some entry →
  mysql_user_grants host' user user_hostname conn
    !! database_table database table = Some entry' →
  (∀ t, t ∈ normalize <$> Grant.permissions entry
        ↔ t ∈ normalize <$> Grant.permissions entry') →
  permission host user permissions user_hostname database table
             present flush conn
  = permission host' user permissions user_hostname database table
               present flush conn.
Proof.
  intros Hentry Hentry' Hsame.
  rewrite (permission_with_entry _ _ _ _ _ _ _ _ _ _ Hentry).
  rewrite (permission_with_entry _ _ _ _ _ _ _ _ _ _ Hentry').
  by rewrite (all_in_ext _ _ _ Hsame).
Qed.

Lemma permission_reads_entry_as_set_witness :
  permission all_twice "bob" (PermList ["ALL"; "SELECT"]) "localhost" "*" "*"
             false true default_connection
  = permission all_once "bob" (PermList ["ALL"; "SELECT"]) "localhost" "*" "*"
               false true default_connection.
Proof.
  apply (permission_reads_entry_as_set all_twice all_once "bob"
           (PermList ["ALL"; "SELECT"]) "localhost" "*" "*" false true
           default_connection
           (Grant.Entry ["SELECT"; "ALL"; "ALL PRIVILEGES"; "SELECT"])
           (Grant.Entry ["ALL PRIVILEGES"; "SELECT"]) eq_refl eq_refl).
  intros t.
  change (t ∈ ["SELECT"; "ALL"; "ALL"; "SELECT"] ↔ t ∈ ["ALL"; "SELECT"]).
  rewrite !elem_of_cons, !elem_of_nil. tauto.
Defined.

(** Being satisfied is kept by granting more and by asking for less: when a
    desired list yields nothing with [present] true, so does every list of
    tokens taken from it, on every host whose entry holds at least the same
    tokens. Extra grants on the host never cause a GRANT. *)
Theorem satisfied_stays_satisfied
    host host' user permissions permissions' user_hostname database table
    flush conn entry entry' :
  mysql_user_grants host user user_hostname conn
    !! database_table database table = Some entry →
  mysql_user_grants host' user user_hostname conn
    !! database_table database table = Some entry' →
  (∀ t, t ∈ normalize <$> Grant.permissions entry
        → t ∈ normalize <$> Grant.permissions entry') →
  (∀ p, p ∈ ensure_list permissions' → p ∈ ensure_list permissions) →
  permission host user permissions user_hostname database table
             true flush conn = Ok [] →
  permission host' user permissions' user_hostname database table
             true flush conn = Ok [].
Proof.
  intros Hentry Hentry' Hmore Hfewer.
  rewrite (permission_with_entry _ _ _ _ _ _ _ _ _ _ Hentry).
  rewrite (permission_with_entry _ _ _ _ _ _ _ _ _ _ Hentry').
  destruct (all_in _ (ensure_list permissions)) eqn:Hall;
    cbn [decide_action negb andb emitted]; [|done].
  intros _. by rewrite (all_in_mono _ _ _ _ Hmore Hfewer Hall).
Qed.

Lemma satisfied_stays_satisfied_witness :
  permission all_twice "bob" (PermString "SELECT") "localhost" "*" "*"
             true true default_connection = Ok [].
Proof.
  apply (satisfied_stays_satisfied all_once all_twice "bob"
           (PermList ["ALL"; "SELECT"]) (PermString "SELECT")
           "localhost" "*" "*" true default_connection
           (Grant.Entry ["ALL PRIVILEGES"; "SELECT"])
           (Grant.Entry ["SELECT"; "ALL"; "ALL PRIVILEGES"; "SELECT"])
           eq_refl eq_refl).
  - intros t.
    change (t ∈ ["ALL"; "SELECT"] → t ∈ ["SELECT"; "ALL"; "ALL"; "SELECT"]).
    rewrite !elem_of_cons, !elem_of_nil. tauto.
  - intros p.
    change (p ∈ ["SELECT"] → p ∈ ["ALL"; "SELECT"]).
    rewrite !elem_of_cons, !elem_of_nil. tauto.
  - reflexivity.
Defined.

(** With the entry there, exactly one of the two directions has something
    to do: the call with [present] true yields nothing if and only if the
    call with [present] false yields a REVOKE. *)
Theorem exactly_one_direction
    host user permissions user_hostname database table flush conn :
  is_Some (mysql_user_grants host user user_hostname conn
             !! database_table database table) →
  (permission host user permissions user_hostname database table
              true flush conn = Ok []
   ↔ permission host user permissions user_hostname database table
                false flush conn ≠ Ok [])
  ∧ (permission host user permissions user_hostname database table
                false flush conn = Ok []
     ↔ permission host user permissions user_hostname database table
                  true flush conn ≠ Ok []).
Proof.
  intros [entry Hentry].
  rewrite !(permission_with_entry _ _ _ _ _ _ _ _ _ _ Hentry).
  destruct (all_in _ _); cbn [decide_action negb andb emitted];
    split; split; try done; intros H; by contradict H.
Qed.

Lemma exactly_one_direction_witness :
  permission db_select_only "bob" (PermString "SELECT") "localhost" "db" "*"
             false false default_connection ≠ Ok [].
Proof.
  apply (exactly_one_direction db_select_only "bob" (PermString "SELECT")
           "localhost" "db" "*" false default_connection).
  - vm_compute. eexists. reflexivity.
  - reflexivity.
Defined.

(** An empty desired list is vacuously satisfied: with the entry there, a
    call with [present] true yields nothing, and a call with [present] false
    always yields a REVOKE that names no privilege. *)
Theorem empty_list_is_always_revoked
    host user user_hostname database table flush conn :
  is_Some (mysql_user_grants host user user_hostname conn
             !! database_table database table) →
  permission host user (PermList []) user_hostname database table
             true flush conn = Ok []
  ∧ permission host user (PermList []) user_hostname database table
               false flush conn
    = Ok (make_execute_mysql_command
            (Str.escape_backticks
               ("REVOKE  ON " +:+ backquote database +:+ "."
                +:+ backquote table +:+ " FROM " +:+ Str.quoted user
                +:+ "@" +:+ Str.quoted user_hostname +:+ " ")) conn
          :: (if flush
              then [make_execute_mysql_command "FLUSH PRIVILEGES" conn]
              else [])).
Proof.
  intros [entry Hentry].
  by rewrite !(permission_with_entry _ _ _ _ _ _ _ _ _ _ Hentry).
Qed.

Lemma empty_list_is_always_revoked_witness :
  permission db_select_only "bob" (PermList []) "localhost" "db" "*"
             true true default_connection = Ok [].
Proof.
  apply (empty_list_is_always_revoked db_select_only "bob" "localhost"
           "db" "*" true default_connection).
  vm_compute. eexists. reflexivity.
Defined.

(** ** Arguments that count as absent *)

(** An empty string or an empty list is as good as no argument: empty
    permissions make [user] delegate nothing, an empty password adds no
    [IDENTIFIED BY], an empty collate or charset adds no clause, and an empty
    user name or empty user permissions make [database] delegate nothing. *)
Theorem empty_arguments_are_absent
    host name present collate charset db_user user_hostname password
    permissions user_permissions conn :
  user host name present user_hostname password (Some (PermList [])) conn
  = user host name present user_hostname password None conn
  ∧ user host name present user_hostname password
         (Some (PermString EmptyString)) conn
    = user host name present user_hostname password None conn
  ∧ user host name present user_hostname (Some EmptyString) permissions conn
    = user host name present user_hostname None permissions conn
  ∧ database host name present (Some EmptyString) charset
             db_user user_hostname user_permissions conn
    = database host name present None charset
               db_user user_hostname user_permissions conn
  ∧ database host name present collate (Some EmptyString)
             db_user user_hostname user_permissions conn
    = database host name present collate None
               db_user user_hostname user_permissions conn
  ∧ database host name present collate charset
             (Some EmptyString) user_hostname user_permissions conn
    = database host name present collate charset
               None user_hostname user_permissions conn
  ∧ database host name present collate charset
             db_user user_hostname (Some (PermList [])) conn
    = database host name present collate charset
               db_user user_hostname None conn.
Proof.
  repeat split; try reflexivity.
  - unfold database. destruct user_permissions as [perms|]; reflexivity.
  - unfold database. destruct db_user as [u|]; [|reflexivity].
    cbn [truthy permissions_arg_truthy list_truthy].
    by rewrite andb_false_r.
Qed.

(** ** What a wanted object never gets *)

Lemma elem_of_unroll (ys : list yielded) cmds c :
  unroll ys = Ok cmds → c ∈ cmds →
  c ∈ own_commands ys ∨ ∃ g, g ∈ delegated ys ∧ c ∈ commands_of g.
Proof.
  revert cmds. induction ys as [|[c'|g] ys IH]; intros cmds.
  - intros [= <-] H. inversion H.
  - cbn [unroll]. destruct (unroll ys) as [cs|key]; [|done].
    cbn [mbind result_bind]. intros [= <-] [-> | Hc]%elem_of_cons.
    + left. left.
    + destruct (IH cs eq_refl Hc) as [Hown | (g & Hg & Hin)].
      * left. by right.
      * right. by exists g.
  - cbn [unroll]. destruct g as [cs|key]; [|done].
    destruct (unroll ys) as [cs'|key]; [|done].
    cbn [mbind result_bind]. intros [= <-] [Hc | Hc]%elem_of_app.
    + right. exists (Ok cs). split; [left | done].
    + destruct (IH cs' eq_refl Hc) as [Hown | (g & Hg & Hin)].
      * by left.
      * right. exists g. split; [by right | done].
Qed.

(** With [present] true nothing is ever dropped: no command of a [database]
    call is a [DROP DATABASE], and no command of a [user] call is a
    [DROP USER], the commands of the delegated permission calls included. *)
Theorem wanted_is_never_dropped
    host name collate charset db_user user_hostname user_permissions
    password permissions conn :
  (∀ cmds,
     unroll (database host name true collate charset
                      db_user user_hostname user_permissions conn)
     = Ok cmds →
     List.filter is_drop_database cmds = [])
  ∧ (∀ cmds,
       unroll (user host name true user_hostname password permissions conn)
       = Ok cmds →
       List.filter is_drop_user cmds = []).
Proof.
  split; intros cmds Hrun; rewrite (unroll_filter _ _ _ Hrun).
  - destruct (database_wanted_parts host name collate charset db_user
                user_hostname user_permissions conn) as [-> _].
    destruct (bool_decide _); [done|]. cbn [List.filter].
    assert (is_drop_database
              (make_execute_mysql_command
                 (create_database_sql name collate charset) conn) = false)
      as -> by (rewrite create_database_sql_text; keyword).
    done.
  - intros g c (u & perms & ->)%database_delegated Hc.
    by apply permission_commands in Hc as (_ & _ & -> & _).
  - destruct (user_wanted_parts host name user_hostname password permissions
                conn) as [-> _].
    destruct (bool_decide _); [done|]. cbn [List.filter].
    assert (is_drop_user
              (make_execute_mysql_command
                 (create_user_sql name user_hostname password) conn) = false)
      as -> by (rewrite create_user_sql_text; keyword).
    done.
  - intros g c (perms & ->)%user_delegated Hc.
    by apply permission_commands in Hc as (_ & _ & _ & _ & ->).
Qed.

(** ** The identity of a user *)

Lemma identity_inj (name h1 h2 : string) :
  name +:+ "@" +:+ h1 = name +:+ "@" +:+ h2 → h1 = h2.
Proof.
  intros H. apply (String.app_inj name) in H. by injection H.
Qed.

(** The hostname is part of the identity: on a host whose only user of that
    name is at another hostname, a wanted user is created anew and an
    unwanted one is left alone, the existing user never being touched. *)
Theorem hostname_is_part_of_identity
    host name h1 h2 password permissions conn :
  h1 ≠ h2 →
  mysql_users host conn = {[ name +:+ "@" +:+ h1 ]} →
  own_commands (user host name true h2 password permissions conn)
  = [make_execute_mysql_command
       ("CREATE USER " +:+ Str.quoted name +:+ "@" +:+ Str.quoted h2
        +:+ identified password) conn]
  ∧ user host name false h2 password permissions conn = []
  ∧ own_commands (user host name true h1 password permissions conn) = [].
Proof.
  intros Hne Husers.
  assert (name +:+ "@" +:+ h2 ∉ mysql_users host conn) as Hout.
  { rewrite Husers, elem_of_singleton. intros H. apply Hne.
    symmetry. by apply (identity_inj name). }
  assert (name +:+ "@" +:+ h1 ∈ mysql_users host conn) as Hin
    by (rewrite Husers; by apply elem_of_singleton).
  split; [|split].
  - destruct (user_wanted_parts host name h2 password permissions conn)
      as [-> _].
    by rewrite bool_decide_eq_false_2, create_user_sql_text.
  - by rewrite user_unwanted_yields, bool_decide_eq_false_2.
  - destruct (user_wanted_parts host name h1 password permissions conn)
      as [-> _].
    by rewrite bool_decide_eq_true_2.
Qed.

Lemma hostname_is_part_of_identity_witness :
  user bob_local "bob" false "%" None None default_connection = [].
Proof.
  apply (hostname_is_part_of_identity bob_local "bob" "localhost" "%"
           None None default_connection).
  - discriminate.
  - reflexivity.
Defined.

(** ** The connection of each command *)

(** Every command of a [user] call goes over the connection of the call.
    A [database] call uses two: its own CREATE or DROP goes over the
    connection of the call, every GRANT and FLUSH of its permission call
    over the default connection. *)
Theorem connection_of_each_command
    host name present collate charset db_user user_hostname user_permissions
    password permissions conn :
  (∀ cmds c,
     unroll (user host name present user_hostname password permissions conn)
     = Ok cmds →
     c ∈ cmds → via c = conn)
  ∧ (∀ cmds c,
       unroll (database host name present collate charset
                        db_user user_hostname user_permissions conn)
       = Ok cmds →
       c ∈ cmds →
       via c = if is_create_database c || is_drop_database c
               then conn else default_connection).
Proof.
  split; intros cmds c Hrun Hc;
    destruct (elem_of_unroll _ _ _ Hrun Hc) as [Hown | (g & Hg & Hin)].
  - destruct present.
    + destruct (user_wanted_parts host name user_hostname password
                  permissions conn) as [Heq _].
      rewrite Heq in Hown. destruct (bool_decide _); [inversion Hown|].
      by apply list_elem_of_singleton in Hown as ->.
    + rewrite user_unwanted_yields in Hown.
      destruct (bool_decide _); [|inversion Hown].
      by apply list_elem_of_singleton in Hown as ->.
  - apply user_delegated in Hg as (perms & ->).
    by apply permission_commands in Hin as [-> _].
  - destruct present.
    + destruct (database_wanted_parts host name collate charset db_user
                  user_hostname user_permissions conn) as [Heq _].
      rewrite Heq in Hown. destruct (bool_decide _); [inversion Hown|].
      apply list_elem_of_singleton in Hown as ->.
      by rewrite create_database_kind.
    + rewrite database_unwanted_yields in Hown.
      destruct (bool_decide _); [|inversion Hown].
      apply list_elem_of_singleton in Hown as ->.
      assert (is_drop_database
                (make_execute_mysql_command (drop_database_sql name) conn)
              = true) as -> by keyword.
      by rewrite orb_true_r.
  - apply database_delegated in Hg as (u & perms & ->).
    by apply permission_commands in Hin as (-> & -> & -> & _).
Qed.

(** ** What each operation reads *)

(** Each operation looks at its own facts only. [permission] reads the
    grants of its user at its hostname through its connection, and never
    whether the user or the database exists; [user] reads the identities
    through its connection and the grants of the name at the local host;
    [database] reads the database names through its connection and the
    grants of the given user through the default connection. Two hosts that
    agree on these get the same commands. *)
Theorem operations_read_only_their_facts
    (h1 h2 : facts) name user_name perms present flush scope table
    collate charset db_user user_hostname user_permissions password
    permissions conn :
  (mysql_user_grants h1 user_name user_hostname conn
   = mysql_user_grants h2 user_name user_hostname conn →
   permission h1 user_name perms user_hostname scope table
              present flush conn
   = permission h2 user_name perms user_hostname scope table
                present flush conn)
  ∧ (mysql_users h1 conn = mysql_users h2 conn →
     mysql_user_grants h1 name "localhost" conn
     = mysql_user_grants h2 name "localhost" conn →
     user h1 name present user_hostname password permissions conn
     = user h2 name present user_hostname password permissions conn)
  ∧ (mysql_databases h1 conn = mysql_databases h2 conn →
     (∀ u, db_user = Some u →
           mysql_user_grants h1 u user_hostname default_connection
           = mysql_user_grants h2 u user_hostname default_connection) →
     database h1 name present collate charset
              db_user user_hostname user_permissions conn
     = database h2 name present collate charset
                db_user user_hostname user_permissions conn).
Proof.
  assert (∀ u p uh d t pr fl c,
            mysql_user_grants h1 u uh c = mysql_user_grants h2 u uh c →
            permission h1 u p uh d t pr fl c
            = permission h2 u p uh d t pr fl c) as Hpermission.
  { intros u p uh d t pr fl c H. unfold permission. by rewrite H. }
  split; [|split].
  - apply Hpermission.
  - intros Husers Hgrants. unfold user. rewrite Husers.
    destruct permissions as [p|]; [|done].
    by rewrite (Hpermission name p "localhost" "*" "*" true true conn).
  - intros Hdatabases Hgrants. unfold database. rewrite Hdatabases.
    destruct db_user as [u|], user_permissions as [p|]; try done.
    by rewrite (Hpermission u p user_hostname name "*" true true
                  default_connection (Hgrants u eq_refl)).
Qed.
